(** * SimCoupe, Win32/Audio.cpp: the DirectSound writer and the frame timer

    A shallow embedding of [Audio::AddData], [Audio::Silence] and
    [TimeCallback], and the properties of the circular write offset, the
    two-span copy, the frame timer interval and the return values.

    The file-scope statics of Audio.cpp become one record that is passed
    through every call.  What DirectSound and the Win32 timer answer is an
    input: one [DeviceAnswer] per pass of the write loop, so the loop is a
    structural recursion on the answers it still has. *)

From stdpp Require Import base list.
From Stdlib Require Import ZArith Lia.
From Stdlib Require Import Init.Byte.

Open Scope Z_scope.

(** ** Machine integers

    [DWORD] is an unsigned and [int] a signed 32-bit integer; both are
    carried as [Z] and the wrap-around is written where C++ performs it. *)

Definition u32 (x : Z) : Z := x mod 2 ^ 32.

Definition s32 (x : Z) : Z := (x + 2 ^ 31) mod 2 ^ 32 - 2 ^ 31.

(** ** What the module calls outside itself *)

Definition DSBLOCK_ENTIREBUFFER : Z := 2.
Definition INFINITE : Z := 4294967295.

Inductive Event : Type :=
| EvGetCurrentPosition
| EvLock (dwOffset dwBytes dwFlags : Z)
| EvUnlock (pv1 dwBytes1 pv2 dwBytes2 : Z)
| EvSleep (ms : Z)
| EvTimeKillEvent (h : Z)
| EvTimeSetEvent (uDelay : Z)
| EvMessage
| EvWaitForSingleObject (h : Z) (ms : Z).

(** The two regions returned by [IDirectSoundBuffer::Lock].  A pointer into
    the sample memory is carried as its byte offset from the start of that
    memory. *)
Record Spans : Type := MkSpans {
  pvWrite1 : Z;
  dwLength1 : Z;
  pvWrite2 : Z;
  dwLength2 : Z
}.

(** What the sound buffer answers during one pass: the cursors (or a
    failure), and the outcome of a lock of [dwBytes] at [dwOffset]. *)
Record DeviceAnswer : Type := MkAnswer {
  GetCurrentPosition : option (Z * Z);
  Lock : Z -> Z -> Z -> option Spans
}.

(** ** The statics of Audio.cpp

    [pdsb] is NULL ([None]) or points to the secondary buffer, carried as its
    sample memory.  [event_signalled] is the state of the auto-reset event
    behind [hEvent]; [calls] records the device and system calls made so far,
    oldest first. *)
Record Audio : Type := MkAudio {
  pdsb : option (list byte);
  nSampleBufferSize : Z;
  dwWriteOffset : Z;
  hEvent : Z;
  hTimer : Z;
  dwTimer : Z;
  event_signalled : bool;
  calls : list Event
}.

Definition call (e : Event) (st : Audio) : Audio :=
  MkAudio (pdsb st) (nSampleBufferSize st) (dwWriteOffset st) (hEvent st)
          (hTimer st) (dwTimer st) (event_signalled st) (calls st ++ [e]).

Definition set_memory (mem : list byte) (st : Audio) : Audio :=
  MkAudio (Some mem) (nSampleBufferSize st) (dwWriteOffset st) (hEvent st)
          (hTimer st) (dwTimer st) (event_signalled st) (calls st).

Definition set_dwWriteOffset (v : Z) (st : Audio) : Audio :=
  MkAudio (pdsb st) (nSampleBufferSize st) v (hEvent st)
          (hTimer st) (dwTimer st) (event_signalled st) (calls st).

Definition set_timer (h t : Z) (st : Audio) : Audio :=
  MkAudio (pdsb st) (nSampleBufferSize st) (dwWriteOffset st) (hEvent st)
          h t (event_signalled st) (calls st).

Definition set_event (b : bool) (st : Audio) : Audio :=
  MkAudio (pdsb st) (nSampleBufferSize st) (dwWriteOffset st) (hEvent st)
          (hTimer st) (dwTimer st) b (calls st).

(** ** Memory copies

    [memcpy] and [memset] into the sample memory.  A copy that leaves the
    sample memory, or reads more than the source holds, is undefined in C++
    and is [None] here. *)
Definition in_bounds (mem : list byte) (dst n : Z) : bool :=
  (0 <=? dst) && (0 <=? n) && (dst + n <=? Z.of_nat (length mem)).

Definition memcpy (mem : list byte) (dst : Z) (src : list byte) (n : Z)
  : option (list byte) :=
  if in_bounds mem dst n && (n <=? Z.of_nat (length src))
  then Some (list_inserts (Z.to_nat dst) (take (Z.to_nat n) src) mem)
  else None.

Definition memset (mem : list byte) (dst : Z) (c : byte) (n : Z)
  : option (list byte) :=
  if in_bounds mem dst n
  then Some (list_inserts (Z.to_nat dst) (replicate (Z.to_nat n) c) mem)
  else None.

(** ** TimeCallback (lines 248-252): signal that the next frame is due *)
Definition TimeCallback (st : Audio) : Audio := set_event true st.

(** [WaitForSingleObject(hEvent, INFINITE)] on the auto-reset event.  A NULL
    handle makes the wait fail at once.  A pending signal is consumed.
    Otherwise only [TimeCallback] can signal the event, and only a running
    periodic timer calls it: with [hTimer] zero the wait never ends
    ([None]). *)
Definition wait_for_event (st : Audio) : option Audio :=
  if hEvent st =? 0 then Some st
  else if event_signalled st then Some (set_event false st)
  else if hTimer st =? 0 then None
  else Some (set_event false (TimeCallback st)).

(** ** Audio::Silence (lines 84-103)

    [garbage] is the indeterminate value of the local [dwPlayCursor], which
    stays in it when [GetCurrentPosition] fails: the result of that call is
    not tested. *)
Definition Silence (dev : DeviceAnswer) (garbage : Z) (st : Audio)
  : option Audio :=
  match pdsb st with
  | None => Some st
  | Some mem =>
    let st := call (EvLock 0 0 DSBLOCK_ENTIREBUFFER) st in
    let locked :=
      match Lock dev 0 0 DSBLOCK_ENTIREBUFFER with
      | Some sp =>
        match memset mem (pvWrite1 sp) x00 (dwLength1 sp) with
        | Some mem' =>
          Some (call (EvUnlock (pvWrite1 sp) (dwLength1 sp) 0 0)
                     (set_memory mem' st))
        | None => None
        end
      | None => Some st
      end in
    match locked with
    | None => None
    | Some st =>
      let st := call EvGetCurrentPosition st in
      let dwPlayCursor :=
        match GetCurrentPosition dev with
        | Some (play, _) => play
        | None => garbage
        end in
      Some (set_dwWriteOffset dwPlayCursor st)
    end
  end.

(** ** Audio::AddData, the write loop (lines 135-191) *)

Inductive Flow : Type := Break | Continue.

(** The spans part of one pass (lines 157-181), after a successful lock. *)
Definition write_spans (sp : Spans) (mem : list byte) (st : Audio)
    (pbData_ : list byte) (nLength_ : Z)
  : option (Audio * list byte * Z) :=
  let dwLength1 := Z.min (dwLength1 sp) (u32 nLength_) in
  let first :=
    if dwLength1 =? 0 then Some (mem, pbData_, nLength_)
    else match memcpy mem (pvWrite1 sp) pbData_ dwLength1 with
         | Some mem' =>
           Some (mem', drop (Z.to_nat dwLength1) pbData_, s32 (nLength_ - dwLength1))
         | None => None
         end in
  match first with
  | None => None
  | Some (mem, pbData_, nLength_) =>
    let dwLength2 := Z.min (dwLength2 sp) (u32 nLength_) in
    let second :=
      if dwLength2 =? 0 then Some (mem, pbData_, nLength_)
      else match memcpy mem (pvWrite2 sp) pbData_ dwLength2 with
           | Some mem' =>
             Some (mem', drop (Z.to_nat dwLength2) pbData_, s32 (nLength_ - dwLength2))
           | None => None
           end in
    match second with
    | None => None
    | Some (mem, pbData_, nLength_) =>
      let st := call (EvUnlock (pvWrite1 sp) dwLength1 (pvWrite2 sp) dwLength2)
                     (set_memory mem st) in
      if u32 (nSampleBufferSize st) =? 0 then None
      else
        let off := u32 (dwWriteOffset st + dwLength1 + dwLength2)
                     mod u32 (nSampleBufferSize st) in
        Some (set_dwWriteOffset off st, pbData_, nLength_)
    end
  end.

(** One pass through the body of [while (nLength_ > 0)].  [None] is undefined
    behaviour: a division by a zero buffer size or a copy out of bounds. *)
Definition AddData_pass (dev : DeviceAnswer) (st : Audio)
    (pbData_ : list byte) (nLength_ : Z)
  : option (Flow * Audio * list byte * Z) :=
  match pdsb st with
  | None => None
  | Some mem =>
    let st := call EvGetCurrentPosition st in
    match GetCurrentPosition dev with
    | None => Some (Break, st, pbData_, nLength_)
    | Some (dwPlayCursor, dwWriteCursor) =>
      if u32 (nSampleBufferSize st) =? 0 then None
      else
        let nSpace :=
          s32 (u32 (nSampleBufferSize st + dwPlayCursor - dwWriteOffset st)
                 mod u32 (nSampleBufferSize st)) in
        let nSpace := Z.min nSpace nLength_ in
        let written :=
          if nSpace =? 0 then Some (st, pbData_, nLength_)
          else
            let st := call (EvLock (dwWriteOffset st) (u32 nSpace) 0) st in
            match Lock dev (dwWriteOffset st) (u32 nSpace) 0 with
            | None => Some (st, pbData_, nLength_)
            | Some sp => write_spans sp mem st pbData_ nLength_
            end in
        match written with
        | None => None
        | Some (st, pbData_, nLength_) =>
          if nLength_ =? 0 then Some (Break, st, pbData_, nLength_)
          else Some (Continue, call (EvSleep 2) st, pbData_, nLength_)
        end
    end
  end.

(** How the loop stands when the answers run out. *)
Inductive LoopState : Type :=
| LeftLoop (st : Audio) (pbData_ : list byte) (nLength_ : Z)
| StillPolling (st : Audio) (pbData_ : list byte) (nLength_ : Z)
| LoopTrap.

Fixpoint AddData_loop (devs : list DeviceAnswer) (st : Audio)
    (pbData_ : list byte) (nLength_ : Z) : LoopState :=
  if nLength_ <=? 0 then LeftLoop st pbData_ nLength_
  else
    match devs with
    | [] => StillPolling st pbData_ nLength_
    | dev :: devs' =>
      match AddData_pass dev st pbData_ nLength_ with
      | None => LoopTrap
      | Some (Break, st', pbData', nLength') => LeftLoop st' pbData' nLength'
      | Some (Continue, st', pbData', nLength') =>
        AddData_loop devs' st' pbData' nLength'
      end
    end.

(** ** Audio::AddData (lines 105-194) *)

(** What the rest of the system gives one call: the speed option, what
    [timeSetEvent] would return (zero on failure), and the answers of the
    sound buffer, one per pass. *)
Record Host : Type := MkHost {
  GetOption_speed : Z;
  timeSetEvent : Z;
  answers : list DeviceAnswer
}.

Inductive Outcome : Type :=
| Returned (ret : bool) (st : Audio)
| Polling (st : Audio) (pbData_ : list byte) (nLength_ : Z)
| Blocked (st : Audio)
| Trap.

Section FrameRate.

(** [EMULATED_FRAMES_PER_SECOND] is a macro of a header that is not part of
    these sources (the specification's scenarios take 50). *)
Variable EMULATED_FRAMES_PER_SECOND : Z.

(** Lines 115-116: the time between frames in ms.  [int] arithmetic, the
    quotient stored in a [DWORD]; [None] when the divisor is zero. *)
Definition frame_time (speed : Z) : option Z :=
  let divisor := s32 (EMULATED_FRAMES_PER_SECOND * speed) ÷ 100 in
  if divisor =? 0 then None
  else
    let dwTime := u32 (1000 ÷ divisor) in
    Some (if dwTime =? 0 then 1 else dwTime).

(** Lines 112-132: no DirectSound buffer, wait for the frame timer. *)
Definition AddData_timer (host : Host) (st : Audio) : Outcome :=
  match frame_time (GetOption_speed host) with
  | None => Trap
  | Some dwTime =>
    let st :=
      if dwTime =? dwTimer st then st
      else
        let st := if hTimer st =? 0 then st
                  else call (EvTimeKillEvent (hTimer st)) st in
        let st := call (EvTimeSetEvent dwTime)
                       (set_timer (timeSetEvent host) dwTime st) in
        if hTimer st =? 0 then call EvMessage st else st in
    let st := call (EvWaitForSingleObject (hEvent st) INFINITE) st in
    match wait_for_event st with
    | Some st => Returned false st
    | None => Blocked st
    end
  end.

Definition AddData (host : Host) (st : Audio) (pbData_ : list byte)
    (nLength_ : Z) : Outcome :=
  match pdsb st with
  | None => AddData_timer host st
  | Some _ =>
    match AddData_loop (answers host) st pbData_ nLength_ with
    | LeftLoop st' _ _ => Returned true st'
    | StillPolling st' pbData' nLength' => Polling st' pbData' nLength'
    | LoopTrap => Trap
    end
  end.

End FrameRate.

(** ** The device buffer contract *)

(** Modelled from the spec: [lock(offset, length)] of the device buffer
    contract, which DirectSound implements outside these sources.  The
    region starts at [dwOffset]; what passes the end of the physical buffer
    comes back as a second span at its start.  [DSBLOCK_ENTIREBUFFER] asks
    for the whole buffer whatever [dwBytes] says. *)
Definition ds_lock (size dwOffset dwBytes dwFlags : Z) : Spans :=
  let bytes := if Z.testbit dwFlags 1 then size else dwBytes in
  let len1 := Z.min bytes (size - dwOffset) in
  MkSpans dwOffset len1 0 (bytes - len1).

(** A sound buffer of [size] bytes that keeps the contract: a lock that
    succeeds returns the spans of [ds_lock], and the play cursor is an
    offset into the buffer. *)
Definition honours_contract (size : Z) (dev : DeviceAnswer) : Prop :=
  (forall off n fl sp, Lock dev off n fl = Some sp -> sp = ds_lock size off n fl)
  /\ (forall play write, GetCurrentPosition dev = Some (play, write) ->
        0 <= play < size).

(** A healthy sound buffer of [size] bytes that always answers, with the
    play cursor at [play]. *)
Definition healthy (size play : Z) : DeviceAnswer :=
  MkAnswer (Some (play, play)) (fun off n fl => Some (ds_lock size off n fl)).

(** A sound buffer whose cursor query fails. *)
Definition lost : DeviceAnswer := MkAnswer None (fun _ _ _ => None).

(** The statics describe a live buffer: [nSampleBufferSize] is a positive
    [int], it is the size of the sample memory, and the write offset lies
    inside it. *)
Record live (mem : list byte) (st : Audio) : Prop := MkLive {
  live_pdsb : pdsb st = Some mem;
  live_size : 0 < nSampleBufferSize st < 2 ^ 31;
  live_mem : Z.of_nat (length mem) = nSampleBufferSize st;
  live_offset : 0 <= dwWriteOffset st < nSampleBufferSize st
}.

(** The available space of line 147, over the integers. *)
Definition space (st : Audio) (dwPlayCursor : Z) : Z :=
  (nSampleBufferSize st + dwPlayCursor - dwWriteOffset st)
    mod nSampleBufferSize st.

(** The specification's single contiguous write into the circular buffer:
    byte [i] of [src] lands at offset [(off + i) mod size]. *)
Fixpoint ring_write (mem : list byte) (off : nat) (src : list byte)
  : list byte :=
  match src with
  | [] => mem
  | b :: src' => ring_write (<[(off mod length mem)%nat := b]> mem) (S off) src'
  end.

(** The bytes of the sample memory under a span. *)
Definition span_bytes (mem : list byte) (pv len : Z) : list byte :=
  take (Z.to_nat len) (drop (Z.to_nat pv) mem).

(** The loop, started on [devs], makes a pass with answer [dev] from the
    state [(st', data', n')]. *)
Inductive makes_pass :
  list DeviceAnswer -> Audio -> list byte -> Z ->
  DeviceAnswer -> Audio -> list byte -> Z -> Prop :=
| pass_now dev devs st data n :
    0 < n -> makes_pass (dev :: devs) st data n dev st data n
| pass_later dev devs st data n st1 data1 n1 dev' st' data' n' :
    0 < n ->
    AddData_pass dev st data n = Some (Continue, st1, data1, n1) ->
    makes_pass devs st1 data1 n1 dev' st' data' n' ->
    makes_pass (dev :: devs) st data n dev' st' data' n'.

(** A sequence of calls of [AddData] on a live buffer, each with its data,
    its length and the answers of the device; the result is the final state
    and the number of bytes committed in total, when every call returns. *)
Fixpoint AddData_calls (cs : list (list DeviceAnswer * list byte * Z))
    (st : Audio) : option (Audio * Z) :=
  match cs with
  | [] => Some (st, 0)
  | (devs, data, n) :: cs' =>
    match AddData_loop devs st data n with
    | LeftLoop st' _ n' =>
      match AddData_calls cs' st' with
      | Some (st'', total) => Some (st'', n - n' + total)
      | None => None
      end
    | _ => None
    end
  end.

(** A call as the emulator makes it on a buffer of [size] bytes: the length
    is an [int], the data holds that many bytes, and the device keeps the
    contract in every pass. *)
Definition sound_call (size : Z) (c : list DeviceAnswer * list byte * Z)
  : Prop :=
  Forall (honours_contract size) c.1.1
  /\ c.2 < 2 ^ 31
  /\ c.2 <= Z.of_nat (length c.1.2).

(** Some call of the sequence makes a pass with answer [dev] from the state
    [(st', data', n')]. *)
Inductive pass_in_calls :
  list (list DeviceAnswer * list byte * Z) -> Audio ->
  DeviceAnswer -> Audio -> list byte -> Z -> Prop :=
| pass_in_first devs data n cs st dev st' data' n' :
    makes_pass devs st data n dev st' data' n' ->
    pass_in_calls ((devs, data, n) :: cs) st dev st' data' n'
| pass_in_rest devs data n cs st st1 data1 n1 dev st' data' n' :
    AddData_loop devs st data n = LeftLoop st1 data1 n1 ->
    pass_in_calls cs st1 dev st' data' n' ->
    pass_in_calls ((devs, data, n) :: cs) st dev st' data' n'.

(** The loop was left with every byte of the input written. *)
Definition written_in_full (l : LoopState) : Prop :=
  match l with
  | LeftLoop _ _ nLength_ => nLength_ <= 0
  | _ => False
  end.

(** ** Concrete buffers for the examples *)

(** An eight-byte sound buffer with the write offset at 6. *)
Definition ring8 : Audio :=
  MkAudio (Some (replicate 8 x00)) 8 6 0 0 0 false [].

Definition four_bytes : list byte := [x61; x62; x63; x64].

(** No sound buffer: the event behind handle 7 exists, no timer runs yet. *)
Definition pacing : Audio := MkAudio None 0 0 7 0 0 false [].

(** A 1000-byte sound buffer with the write offset at 900. *)
Definition ring1000 : Audio :=
  MkAudio (Some (replicate 1000 x00)) 1000 900 0 0 0 false [].

(** A four-byte sound buffer that holds sound. *)
Definition playing : Audio :=
  MkAudio (Some four_bytes) 4 1 0 0 0 false [].

(** A sound buffer that answers the cursors but refuses every lock. *)
Definition unlockable (play : Z) : DeviceAnswer :=
  MkAnswer (Some (play, play)) (fun _ _ _ => None).

(** ** Setting up and tearing down (lines 49-82 and 198-245)

    [Audio::Init], [Audio::Exit], [InitDirectSound] and [ExitDirectSound]
    also use the static [pds]; it is carried beside the other statics.  Each
    of these functions returns, with the new statics, the calls it made, in
    the order it made them. *)

Record Session : Type := MkSession {
  pds : bool;
  statics : Audio
}.

Inductive SysCall : Type :=
| CallDirectSoundCreate
| CallSetCooperativeLevel
| CallCreateSoundBuffer (dwBufferBytes : Z)
| CallPlay
| CallReleaseBuffer
| CallReleaseDirectSound
| CallCreateEvent
| CallCloseHandle (h : Z)
| CallOther (e : Event).

(** What the options and the system give one [Audio::Init]: the sound and
    latency options, whether each DirectSound call succeeds, the sample
    memory of the buffer DirectSound creates for a size, and the handle
    [CreateEvent] returns (zero on failure). *)
Record Setup : Type := MkSetup {
  GetOption_sound : bool;
  GetOption_latency : Z;
  DirectSoundCreate : bool;
  SetCooperativeLevel : bool;
  CreateSoundBuffer : Z -> option (list byte);
  Play : bool;
  CreateEvent : Z
}.

Definition clear_pdsb (st : Audio) : Audio :=
  MkAudio None (nSampleBufferSize st) (dwWriteOffset st) (hEvent st)
          (hTimer st) (dwTimer st) (event_signalled st) (calls st).

Definition set_nSampleBufferSize (v : Z) (st : Audio) : Audio :=
  MkAudio (pdsb st) v (dwWriteOffset st) (hEvent st)
          (hTimer st) (dwTimer st) (event_signalled st) (calls st).

Definition set_hEvent (h : Z) (st : Audio) : Audio :=
  MkAudio (pdsb st) (nSampleBufferSize st) (dwWriteOffset st) h
          (hTimer st) (dwTimer st) (event_signalled st) (calls st).

(** ExitDirectSound (lines 241-245): release the buffer, then the device. *)
Definition ExitDirectSound (s : Session) : Session * list SysCall :=
  let '(s, c1) :=
    match pdsb (statics s) with
    | Some _ => (MkSession (pds s) (clear_pdsb (statics s)), [CallReleaseBuffer])
    | None => (s, [])
    end in
  let '(s, c2) :=
    if pds s then (MkSession false (statics s), [CallReleaseDirectSound])
    else (s, []) in
  (s, c1 ++ c2).

(** Audio::Exit (lines 72-82). *)
Definition Exit (fReInit_ : bool) (s : Session) : Session * list SysCall :=
  let '(s, c) := ExitDirectSound s in
  let st := statics s in
  let '(st, c1) :=
    if hTimer st =? 0 then (st, [])
    else (set_timer 0 (dwTimer st) st, [CallOther (EvTimeKillEvent (hTimer st))]) in
  let '(st, c2) :=
    if hEvent st =? 0 then (st, [])
    else (set_hEvent 0 st, [CallCloseHandle (hEvent st)]) in
  (MkSession (pds s) st, c ++ c1 ++ c2).

Section SoundFormat.

(** [SAMPLE_FREQ], [SAMPLE_BLOCK] and [EMULATED_FRAMES_PER_SECOND] are
    macros of headers that are not part of these sources. *)
Variables SAMPLE_FREQ SAMPLE_BLOCK EMULATED_FRAMES_PER_SECOND : Z.

(** Lines 221-222, in [int] arithmetic; [None] when the frame rate is
    zero. *)
Definition buffer_size (latency : Z) : option Z :=
  if EMULATED_FRAMES_PER_SECOND =? 0 then None
  else
    let nSamplesPerFrame := s32 (SAMPLE_FREQ ÷ EMULATED_FRAMES_PER_SECOND + 1) in
    Some (s32 (s32 (nSamplesPerFrame * SAMPLE_BLOCK) * s32 (1 + latency))).

(** InitDirectSound (lines 198-239).  A creation call that fails leaves its
    pointer NULL. *)
Definition InitDirectSound (env : Setup) (s : Session)
  : option (bool * Session * list SysCall) :=
  if negb (DirectSoundCreate env)
  then Some (false, MkSession false (statics s), [CallDirectSoundCreate])
  else if negb (SetCooperativeLevel env)
  then Some (false, MkSession true (statics s),
             [CallDirectSoundCreate; CallSetCooperativeLevel])
  else
    match buffer_size (GetOption_latency env) with
    | None => None
    | Some size =>
      let st := set_nSampleBufferSize size (statics s) in
      let made := [CallDirectSoundCreate; CallSetCooperativeLevel;
                   CallCreateSoundBuffer (u32 size)] in
      match CreateSoundBuffer env (u32 size) with
      | None => Some (false, MkSession true (clear_pdsb st), made)
      | Some mem =>
        Some (Play env, MkSession true (set_memory mem st), made ++ [CallPlay])
      end
    end.

(** Audio::Init (lines 49-70). *)
Definition Init (env : Setup) (fFirstInit_ : bool) (s : Session)
  : option (bool * Session * list SysCall) :=
  let '(s, c0) := Exit true s in
  let started :=
    if negb (GetOption_sound env) then Some (s, [])
    else match InitDirectSound env s with
         | Some (_, s, c) => Some (s, c)
         | None => None
         end in
  match started with
  | None => None
  | Some (s, c1) =>
    let '(s, c2) :=
      match pdsb (statics s) with
      | None =>
        (MkSession (pds s)
           (set_event false (set_hEvent (CreateEvent env) (statics s))),
         [CallCreateEvent])
      | Some _ => (s, [])
      end in
    Some (true, s, c0 ++ c1 ++ c2)
  end.

End SoundFormat.

(** The statics as the program starts: every static is zero. *)
Definition at_start : Session :=
  MkSession false (MkAudio None 0 0 0 0 0 false []).

(** A system in which every set-up call succeeds: buffers come zeroed and
    of the size asked for; events get handle 7. *)
Definition all_well (sound : bool) (latency : Z) : Setup :=
  MkSetup sound latency true true
          (fun size => Some (replicate (Z.to_nat size) x00)) true 7.

(** A sound buffer that always answers and keeps the contract. *)
Definition responsive (size : Z) (dev : DeviceAnswer) : Prop :=
  honours_contract size dev
  /\ (exists play write, GetCurrentPosition dev = Some (play, write))
  /\ (forall off n fl, Lock dev off n fl <> None).

(** Every set-up call succeeds but [Play]. *)
Definition play_fails : Setup :=
  MkSetup true 0 true true
          (fun size => Some (replicate (Z.to_nat size) x00)) false 7.

(** The statics after some frames in timer mode at 100% speed: the event
    has handle 7, the timer handle 5 and a period of 20 ms. *)
Definition paced : Session :=
  MkSession false (MkAudio None 0 0 7 5 20 false []).

(** The calls of the buffer path: the sound buffer and [Sleep]. *)
Definition buffer_call (e : Event) : Prop :=
  match e with
  | EvGetCurrentPosition | EvLock _ _ _ | EvUnlock _ _ _ _ | EvSleep _ => True
  | _ => False
  end.

(** ** Arithmetic of the machine integers *)

Lemma u32_small x : 0 <= x < 2 ^ 32 -> u32 x = x.
Proof. intros H. unfold u32. apply Z.mod_small. exact H. Qed.

Lemma s32_small x : - 2 ^ 31 <= x < 2 ^ 31 -> s32 x = x.
Proof. intros H. unfold s32. rewrite Z.mod_small; lia. Qed.

Lemma space_range st play :
  0 < nSampleBufferSize st -> 0 <= space st play < nSampleBufferSize st.
Proof. intros H. unfold space. apply Z.mod_pos_bound. exact H. Qed.

(** Line 147 under the machine integers is [space]. *)
Lemma nSpace_is_space st play :
  0 < nSampleBufferSize st < 2 ^ 31 ->
  0 <= dwWriteOffset st < nSampleBufferSize st ->
  0 <= play < nSampleBufferSize st ->
  s32 (u32 (nSampleBufferSize st + play - dwWriteOffset st)
         mod u32 (nSampleBufferSize st)) = space st play.
Proof.
  intros HB HW HP. rewrite !u32_small by lia.
  fold (space st play). apply s32_small.
  pose proof (space_range st play ltac:(lia)). lia.
Qed.

(** ** Memory copies inside the sample memory *)

Lemma memcpy_in_bounds mem dst src n :
  0 <= dst -> 0 <= n -> dst + n <= Z.of_nat (length mem) ->
  n <= Z.of_nat (length src) ->
  memcpy mem dst src n
  = Some (list_inserts (Z.to_nat dst) (take (Z.to_nat n) src) mem).
Proof.
  intros Hd Hn Hm Hs. unfold memcpy, in_bounds.
  rewrite (proj2 (Z.leb_le 0 dst)), (proj2 (Z.leb_le 0 n)) by assumption.
  rewrite (proj2 (Z.leb_le _ _) Hm), (proj2 (Z.leb_le _ _) Hs). reflexivity.
Qed.

Lemma memset_in_bounds mem dst c n :
  0 <= dst -> 0 <= n -> dst + n <= Z.of_nat (length mem) ->
  memset mem dst c n
  = Some (list_inserts (Z.to_nat dst) (replicate (Z.to_nat n) c) mem).
Proof.
  intros Hd Hn Hm. unfold memset, in_bounds.
  rewrite (proj2 (Z.leb_le 0 dst)), (proj2 (Z.leb_le 0 n)) by assumption.
  rewrite (proj2 (Z.leb_le _ _) Hm). reflexivity.
Qed.

(** The spans part of a pass, for spans that lie inside the sample memory:
    each copy is cut to what is left of the input. *)
Lemma write_spans_in_bounds sp mem st data n :
  u32 (nSampleBufferSize st) <> 0 ->
  0 < n < 2 ^ 31 ->
  n <= Z.of_nat (length data) ->
  0 <= pvWrite1 sp -> 0 <= dwLength1 sp ->
  pvWrite1 sp + dwLength1 sp <= Z.of_nat (length mem) ->
  0 <= pvWrite2 sp -> 0 <= dwLength2 sp ->
  pvWrite2 sp + dwLength2 sp <= Z.of_nat (length mem) ->
  let l1 := Z.min (dwLength1 sp) n in
  let l2 := Z.min (dwLength2 sp) (n - l1) in
  write_spans sp mem st data n
  = Some (set_dwWriteOffset
            (u32 (dwWriteOffset st + l1 + l2) mod u32 (nSampleBufferSize st))
            (call (EvUnlock (pvWrite1 sp) l1 (pvWrite2 sp) l2)
               (set_memory
                  (list_inserts (Z.to_nat (pvWrite2 sp))
                     (take (Z.to_nat l2) (drop (Z.to_nat l1) data))
                     (list_inserts (Z.to_nat (pvWrite1 sp))
                        (take (Z.to_nat l1) data) mem))
                  st)),
          drop (Z.to_nat (l1 + l2)) data,
          n - (l1 + l2)).
Proof.
  intros HB Hn Hdata Hp1 Hl1 Hb1 Hp2 Hl2 Hb2 l1 l2.
  unfold write_spans. rewrite (u32_small n) by lia. fold l1.
  assert (Hfirst :
    (if l1 =? 0 then Some (mem, data, n)
     else match memcpy mem (pvWrite1 sp) data l1 with
          | Some mem' => Some (mem', drop (Z.to_nat l1) data, s32 (n - l1))
          | None => None
          end)
    = Some (list_inserts (Z.to_nat (pvWrite1 sp)) (take (Z.to_nat l1) data) mem,
            drop (Z.to_nat l1) data, n - l1)).
  { destruct (Z.eqb_spec l1 0) as [E|E].
    - rewrite E. replace (n - 0) with n by lia. reflexivity.
    - rewrite memcpy_in_bounds by lia. rewrite s32_small by lia. reflexivity. }
  rewrite Hfirst. clear Hfirst.
  rewrite (u32_small (n - l1)) by lia. fold l2.
  set (mem1 := list_inserts (Z.to_nat (pvWrite1 sp)) (take (Z.to_nat l1) data) mem).
  assert (Hlen1 : length mem1 = length mem) by apply length_inserts.
  assert (Hsecond :
    (if l2 =? 0 then Some (mem1, drop (Z.to_nat l1) data, n - l1)
     else match memcpy mem1 (pvWrite2 sp) (drop (Z.to_nat l1) data) l2 with
          | Some mem' =>
            Some (mem', drop (Z.to_nat l2) (drop (Z.to_nat l1) data),
                  s32 (n - l1 - l2))
          | None => None
          end)
    = Some (list_inserts (Z.to_nat (pvWrite2 sp))
              (take (Z.to_nat l2) (drop (Z.to_nat l1) data)) mem1,
            drop (Z.to_nat (l1 + l2)) data, n - (l1 + l2))).
  { destruct (Z.eqb_spec l2 0) as [E|E].
    - rewrite E. replace (l1 + 0) with l1 by lia. reflexivity.
    - rewrite memcpy_in_bounds.
      + rewrite s32_small by lia. rewrite drop_drop.
        rewrite Z2Nat.inj_add by lia. do 2 f_equal. lia.
      + lia.
      + lia.
      + rewrite Hlen1. lia.
      + rewrite length_drop. lia. }
  rewrite Hsecond. clear Hsecond. cbn beta iota.
  unfold call, set_memory; cbn [nSampleBufferSize dwWriteOffset].
  destruct (Z.eqb_spec (u32 (nSampleBufferSize st)) 0) as [E|E]; [contradiction|].
  reflexivity.
Qed.

(** ** One pass on a live buffer that keeps the contract *)

Lemma ds_lock_plain size off k :
  ds_lock size off k 0
  = MkSpans off (Z.min k (size - off)) 0 (k - Z.min k (size - off)).
Proof. reflexivity. Qed.

Lemma live_call mem st e : live mem st -> live mem (call e st).
Proof. intros [H1 H2 H3 H4]. split; assumption. Qed.

(** A pass commits [k] bytes, with [k] at most the space and at most the
    input left, moves the data pointer and the write offset by [k], and
    leaves a live buffer. *)
Lemma pass_commits mem st dev data n :
  live mem st ->
  honours_contract (nSampleBufferSize st) dev ->
  0 < n < 2 ^ 31 ->
  n <= Z.of_nat (length data) ->
  exists flow st' mem' k,
    AddData_pass dev st data n
    = Some (flow, st', drop (Z.to_nat k) data, n - k)
    /\ live mem' st'
    /\ nSampleBufferSize st' = nSampleBufferSize st
    /\ 0 <= k <= n
    /\ dwWriteOffset st'
       = (dwWriteOffset st + k) mod nSampleBufferSize st
    /\ (forall play write,
          GetCurrentPosition dev = Some (play, write) -> k <= space st play)
    /\ (flow = Break -> k = n \/ GetCurrentPosition dev = None).
Proof.
  intros Hlive [Hlock Hcur] Hn Hdata.
  pose proof Hlive as [Hp HB Hm HW].
  unfold AddData_pass. rewrite Hp.
  destruct (GetCurrentPosition dev) as [[play write]|] eqn:Hpos.
  2:{ exists Break, (call EvGetCurrentPosition st), mem, 0.
      replace (n - 0) with n by lia.
      split; [reflexivity|]. split; [apply live_call; exact Hlive|].
      split; [reflexivity|]. split; [lia|].
      split; [cbn; rewrite Z.add_0_r, Z.mod_small; lia|].
      split; [discriminate|]. intros _. right. reflexivity. }
  specialize (Hcur play write eq_refl).
  cbn [call nSampleBufferSize dwWriteOffset].
  rewrite nSpace_is_space by assumption.
  pose proof (space_range st play ltac:(lia)) as Hsp.
  rewrite (u32_small (nSampleBufferSize st)) by lia.
  destruct (Z.eqb_spec (nSampleBufferSize st) 0) as [E|_]; [lia|].
  set (k := Z.min (space st play) n).
  destruct (Z.eqb_spec k 0) as [Ek|Ek].
  { (* no space *)
    destruct (Z.eqb_spec n 0) as [E|_]; [lia|].
    exists Continue, (call (EvSleep 2) (call EvGetCurrentPosition st)), mem, 0.
    replace (n - 0) with n by lia.
    split; [reflexivity|]. split; [do 2 apply live_call; exact Hlive|].
    split; [reflexivity|]. split; [lia|].
    split; [cbn; rewrite Z.add_0_r, Z.mod_small; lia|].
    split; [intros p w [= <- <-]; lia|]. discriminate. }
  rewrite (u32_small k) by lia.
  destruct (Lock dev (dwWriteOffset st) k 0) as [sp|] eqn:Hl.
  2:{ (* the lock failed *)
    destruct (Z.eqb_spec n 0) as [E|_]; [lia|].
    eexists Continue, _, mem, 0.
    replace (n - 0) with n by lia.
    split; [reflexivity|]. split; [do 3 apply live_call; exact Hlive|].
    split; [reflexivity|]. split; [lia|].
    split; [cbn; rewrite Z.add_0_r, Z.mod_small; lia|].
    split; [intros p w [= <- <-]; lia|]. discriminate. }
  apply Hlock in Hl. subst sp. rewrite ds_lock_plain.
  rewrite write_spans_in_bounds;
    cbn [pvWrite1 dwLength1 pvWrite2 dwLength2 call nSampleBufferSize];
    [|rewrite u32_small; lia|lia..].
  cbn [call set_memory nSampleBufferSize dwWriteOffset].
  set (l1 := Z.min (Z.min k (nSampleBufferSize st - dwWriteOffset st)) n).
  set (l2 := Z.min (k - Z.min k (nSampleBufferSize st - dwWriteOffset st)) (n - l1)).
  assert (Hk : l1 + l2 = k) by lia.
  rewrite Hk. replace (dwWriteOffset st + l1 + l2) with (dwWriteOffset st + k) by lia.
  rewrite (u32_small (nSampleBufferSize st)), (u32_small (dwWriteOffset st + k)) by lia.
  set (mem' := list_inserts _ _ (list_inserts _ _ mem)).
  assert (Hlen : length mem' = length mem).
  { unfold mem'. rewrite !length_inserts. reflexivity. }
  assert (Hoff := Z.mod_pos_bound (dwWriteOffset st + k) (nSampleBufferSize st) ltac:(lia)).
  destruct (Z.eqb_spec (n - k) 0) as [E|E].
  - eexists Break, _, mem', k. split; [reflexivity|].
    split; [split; cbn; [reflexivity|lia|lia|lia]|].
    split; [reflexivity|]. split; [lia|]. split; [reflexivity|].
    split; [intros p w [= <- <-]; lia|]. intros _. left. lia.
  - eexists Continue, _, mem', k. split; [reflexivity|].
    split; [split; cbn; [reflexivity|lia|lia|lia]|].
    split; [reflexivity|]. split; [lia|]. split; [reflexivity|].
    split; [intros p w [= <- <-]; lia|]. discriminate.
Qed.

(** ** The loop on a live buffer that keeps the contract *)

(** The loop never traps; it commits [k] bytes in all and the write offset
    has moved by [k] around the buffer. *)
Lemma loop_commits devs : forall mem st data n,
  live mem st ->
  Forall (honours_contract (nSampleBufferSize st)) devs ->
  n < 2 ^ 31 ->
  n <= Z.of_nat (length data) ->
  exists st' mem' k,
    (AddData_loop devs st data n = LeftLoop st' (drop (Z.to_nat k) data) (n - k)
     \/ AddData_loop devs st data n
        = StillPolling st' (drop (Z.to_nat k) data) (n - k))
    /\ live mem' st'
    /\ nSampleBufferSize st' = nSampleBufferSize st
    /\ 0 <= k /\ (k <= n \/ k = 0)
    /\ dwWriteOffset st' = (dwWriteOffset st + k) mod nSampleBufferSize st.
Proof.
  induction devs as [|dev devs IH]; intros mem st data n Hlive Hdevs Hn Hdata.
  - exists st, mem, 0. replace (n - 0) with n by lia.
    pose proof Hlive as [_ HB _ HW].
    rewrite Z.add_0_r, Z.mod_small by lia. cbn.
    split; [destruct (n <=? 0); [left|right]; reflexivity|].
    split; [exact Hlive|]. repeat split; auto; lia.
  - cbn [AddData_loop]. destruct (Z.leb_spec n 0) as [Hle|Hgt].
    { exists st, mem, 0. replace (n - 0) with n by lia.
      pose proof Hlive as [_ HB _ HW].
      rewrite Z.add_0_r, Z.mod_small by lia.
      split; [left; reflexivity|]. split; [exact Hlive|].
      repeat split; auto; lia. }
    inversion Hdevs as [|? ? Hdev Hrest]; subst.
    destruct (pass_commits mem st dev data n Hlive Hdev ltac:(lia) Hdata)
      as (flow & st1 & mem1 & k1 & Hpass & Hlive1 & HB1 & Hk1 & Hoff1 & _ & _).
    rewrite Hpass. destruct flow.
    + exists st1, mem1, k1. split; [left; reflexivity|].
      split; [exact Hlive1|]. repeat split; auto; lia.
    + destruct (IH mem1 st1 (drop (Z.to_nat k1) data) (n - k1) Hlive1)
        as (st2 & mem2 & k2 & Hloop & Hlive2 & HB2 & Hk2 & Hle2 & Hoff2).
      { rewrite HB1. exact Hrest. }
      { lia. }
      { rewrite length_drop. lia. }
      exists st2, mem2, (k1 + k2).
      rewrite drop_drop, <- Z2Nat.inj_add in Hloop by lia.
      replace (n - k1 - k2) with (n - (k1 + k2)) in Hloop by lia.
      split; [exact Hloop|]. split; [exact Hlive2|].
      split; [congruence|]. split; [lia|]. split; [lia|].
      rewrite Hoff2, HB1, Hoff1, Zplus_mod_idemp_l. f_equal. lia.
Qed.

(** Every pass the loop makes starts from a live buffer, with the input
    still inside the data. *)
Lemma makes_pass_live devs st data n dev st' data' n' :
  makes_pass devs st data n dev st' data' n' ->
  forall mem,
  live mem st ->
  Forall (honours_contract (nSampleBufferSize st)) devs ->
  n < 2 ^ 31 ->
  n <= Z.of_nat (length data) ->
  exists mem',
    live mem' st'
    /\ nSampleBufferSize st' = nSampleBufferSize st
    /\ honours_contract (nSampleBufferSize st) dev
    /\ 0 < n' < 2 ^ 31
    /\ n' <= Z.of_nat (length data').
Proof.
  induction 1 as [dev devs st data n Hn
                 |dev devs st data n st1 data1 n1 dev' st' data' n' Hn Hpass Hrest IH];
    intros mem Hlive Hdevs Hint Hdata;
    inversion Hdevs as [|? ? Hdev Hdevs']; subst.
  - exists mem. split; [exact Hlive|]. split; [reflexivity|].
    split; [exact Hdev|]. split; lia.
  - destruct (pass_commits mem st dev data n Hlive Hdev ltac:(lia) Hdata)
      as (flow & st1' & mem1 & k1 & Hpass' & Hlive1 & HB1 & Hk1 & _).
    rewrite Hpass in Hpass'. injection Hpass' as _ <- -> ->.
    destruct (IH mem1 Hlive1) as (mem' & Hl & HB & Hc & Hn' & Hd').
    { rewrite HB1. exact Hdevs'. }
    { lia. }
    { rewrite length_drop. lia. }
    exists mem'. rewrite HB1 in HB, Hc. split; [exact Hl|].
    split; [exact HB|]. split; [exact Hc|]. split; lia.
Qed.

Lemma healthy_honours size play :
  0 <= play < size -> honours_contract size (healthy size play).
Proof.
  intros H. split.
  - intros off n fl sp [= <-]. reflexivity.
  - intros p w [= <- _]. exact H.
Qed.

Lemma lost_honours size : honours_contract size lost.
Proof. split; intros; discriminate. Qed.

(** A sequence of calls that all return moves the write offset by the total
    committed, around the buffer. *)
Lemma calls_commit cs : forall mem st st' total,
  live mem st ->
  Forall (sound_call (nSampleBufferSize st)) cs ->
  AddData_calls cs st = Some (st', total) ->
  0 <= total
  /\ dwWriteOffset st' = (dwWriteOffset st + total) mod nSampleBufferSize st.
Proof.
  induction cs as [|[[devs data] n] cs IH];
    intros mem st st' total Hlive Hcs Hrun.
  - injection Hrun as <- <-. pose proof Hlive as [_ HB _ HW].
    rewrite Z.add_0_r, Z.mod_small by lia. lia.
  - inversion Hcs as [|? ? (Hdevs & Hint & Hdata) Hcs']; subst.
    cbn [fst snd] in Hdevs, Hint, Hdata. cbn [AddData_calls] in Hrun.
    destruct (loop_commits devs mem st data n Hlive Hdevs Hint Hdata)
      as (st1 & mem1 & k & Hloop & Hlive1 & HB1 & Hk & _ & Hoff1).
    destruct Hloop as [Hloop|Hloop]; rewrite Hloop in Hrun; [|discriminate].
    destruct (AddData_calls cs st1) as [[st2 t2]|] eqn:Hrest; [|discriminate].
    injection Hrun as <- <-.
    destruct (IH mem1 st1 st2 t2 Hlive1) as [Ht2 Hoff2]; [congruence|exact Hrest|].
    split; [lia|].
    rewrite Hoff2, HB1, Hoff1, Zplus_mod_idemp_l. f_equal. lia.
Qed.

Lemma pass_in_calls_live cs st dev st' data' n' :
  pass_in_calls cs st dev st' data' n' ->
  forall mem,
  live mem st ->
  Forall (sound_call (nSampleBufferSize st)) cs ->
  exists mem',
    live mem' st'
    /\ nSampleBufferSize st' = nSampleBufferSize st
    /\ honours_contract (nSampleBufferSize st) dev
    /\ 0 < n' < 2 ^ 31
    /\ n' <= Z.of_nat (length data').
Proof.
  induction 1 as [devs data n cs st dev st' data' n' Hpass
                 |devs data n cs st st1 data1 n1 dev st' data' n' Hloop Hrest IH];
    intros mem Hlive Hcs;
    inversion Hcs as [|? ? (Hdevs & Hint & Hdata) Hcs']; subst;
    cbn [fst snd] in Hdevs, Hint, Hdata.
  - exact (makes_pass_live _ _ _ _ _ _ _ _ Hpass mem Hlive Hdevs Hint Hdata).
  - destruct (loop_commits devs mem st data n Hlive Hdevs Hint Hdata)
      as (st1' & mem1 & k & Hloop' & Hlive1 & HB1 & _).
    rewrite Hloop in Hloop'. destruct Hloop' as [[= -> _ _]|]; [|discriminate].
    destruct (IH mem1 Hlive1) as (mem' & Hl & HB & Hc & Hn & Hd); [congruence|].
    exists mem'. rewrite HB1 in HB, Hc. auto.
Qed.

(** ** The circular invariant *)

(** C2. On a live buffer whose device keeps the lock contract: a call that
    committed [k] bytes, and a sequence of calls that committed [total]
    bytes, leave the write offset at (initial offset + bytes committed) mod
    buffer size; and every pass of every call commits at most the available
    space (buffer size + play cursor - write offset) mod buffer size computed
    in that pass, so no write passes the play cursor. *)
Theorem write_offset_circular mem st cs :
  live mem st ->
  Forall (sound_call (nSampleBufferSize st)) cs ->
  (forall devs data n,
     sound_call (nSampleBufferSize st) (devs, data, n) ->
     exists st' k,
       (AddData_loop devs st data n
        = LeftLoop st' (drop (Z.to_nat k) data) (n - k)
        \/ AddData_loop devs st data n
           = StillPolling st' (drop (Z.to_nat k) data) (n - k))
       /\ 0 <= k
       /\ dwWriteOffset st'
          = (dwWriteOffset st + k) mod nSampleBufferSize st)
  /\ (forall st' total,
        AddData_calls cs st = Some (st', total) ->
        dwWriteOffset st'
        = (dwWriteOffset st + total) mod nSampleBufferSize st)
  /\ (forall dev st_i data_i n_i,
        pass_in_calls cs st dev st_i data_i n_i ->
        exists flow st_j k,
          AddData_pass dev st_i data_i n_i
          = Some (flow, st_j, drop (Z.to_nat k) data_i, n_i - k)
          /\ 0 <= k
          /\ nSampleBufferSize st_i = nSampleBufferSize st
          /\ dwWriteOffset st_j
             = (dwWriteOffset st_i + k) mod nSampleBufferSize st
          /\ forall play write,
               GetCurrentPosition dev = Some (play, write) ->
               k <= (nSampleBufferSize st + play - dwWriteOffset st_i)
                      mod nSampleBufferSize st).
Proof.
  intros Hlive Hcs. split; [|split].
  - intros devs data n (Hdevs & Hint & Hdata). cbn [fst snd] in *.
    destruct (loop_commits devs mem st data n Hlive Hdevs Hint Hdata)
      as (st' & mem' & k & Hloop & _ & _ & Hk & _ & Hoff).
    exists st', k. auto.
  - intros st' total Hrun.
    exact (proj2 (calls_commit cs mem st st' total Hlive Hcs Hrun)).
  - intros dev st_i data_i n_i Hpass.
    destruct (pass_in_calls_live _ _ _ _ _ _ Hpass mem Hlive Hcs)
      as (mem_i & Hlive_i & HB & Hdev & Hn & Hdata).
    rewrite <- HB in Hdev.
    destruct (pass_commits mem_i st_i dev data_i n_i Hlive_i Hdev Hn Hdata)
      as (flow & st_j & mem_j & k & Heq & _ & _ & Hk & Hoff & Hsp & _).
    exists flow, st_j, k. rewrite HB in Hoff.
    split; [exact Heq|]. split; [lia|]. split; [exact HB|].
    split; [exact Hoff|].
    intros play write Hpos. specialize (Hsp play write Hpos).
    unfold space in Hsp. rewrite HB in Hsp. exact Hsp.
Qed.

Lemma ring8_live : live (replicate 8 x00) ring8.
Proof. split; cbn; [reflexivity|lia|reflexivity|lia]. Qed.

Lemma write_offset_circular_witness :
  let cs := [([healthy 8 2], four_bytes, 4); ([healthy 8 5], four_bytes, 3)] in
  live (replicate 8 x00) ring8
  /\ Forall (sound_call (nSampleBufferSize ring8)) cs
  /\ (forall st' total,
        AddData_calls cs ring8 = Some (st', total) ->
        dwWriteOffset st' = (6 + total) mod 8).
Proof.
  intros cs.
  assert (Hcs : Forall (sound_call (nSampleBufferSize ring8)) cs).
  { repeat apply Forall_cons_2; try apply Forall_nil_2;
      (split; [|split]; cbn; [|lia|lia]);
      repeat apply Forall_cons_2; try apply Forall_nil_2;
      apply healthy_honours; lia. }
  split; [exact ring8_live|]. split; [exact Hcs|].
  exact (proj1 (proj2
           (write_offset_circular (replicate 8 x00) ring8 cs ring8_live Hcs))).
Defined.

(** ** Writing around the ring *)

Lemma ring_write_length src : forall mem off,
  length (ring_write mem off src) = length mem.
Proof.
  induction src as [|b src IH]; intros mem off; cbn [ring_write];
    [reflexivity|].
  rewrite IH. apply length_insert.
Qed.

(** A write that does not reach the end of the memory is one block copy. *)
Lemma ring_write_contiguous src : forall mem off,
  (off + length src <= length mem)%nat ->
  ring_write mem off src = list_inserts off src mem.
Proof.
  induction src as [|b src IH]; intros mem off Hfit;
    cbn [ring_write list_inserts]; [reflexivity|].
  cbn [length] in Hfit. rewrite Nat.mod_small by lia.
  rewrite IH by (rewrite length_insert; lia).
  symmetry. apply list_insert_inserts_lt. lia.
Qed.

Lemma ring_write_app s1 : forall mem off s2,
  ring_write mem off (s1 ++ s2)
  = ring_write (ring_write mem off s1) (off + length s1) s2.
Proof.
  induction s1 as [|b s1 IH]; intros mem off s2;
    cbn [app ring_write length].
  - rewrite Nat.add_0_r. reflexivity.
  - rewrite IH. f_equal. lia.
Qed.

(** Offsets count modulo the size of the memory. *)
Lemma ring_write_lap src : forall mem off,
  ring_write mem (off + length mem) src = ring_write mem off src.
Proof.
  induction src as [|b src IH]; intros mem off; cbn [ring_write];
    [reflexivity|].
  assert (Hmod : ((off + length mem) mod length mem = off mod length mem)%nat).
  { destruct (length mem) as [|m] eqn:E.
    - cbn. lia.
    - replace (off + S m)%nat with (off + 1 * S m)%nat by lia.
      apply Nat.Div0.mod_add. }
  rewrite Hmod.
  set (mem1 := <[(off mod length mem)%nat := b]> mem).
  assert (Hlen : length mem1 = length mem) by apply length_insert.
  rewrite <- Hlen. apply (IH mem1 (S off)).
Qed.

(** Reading back a block that was just copied. *)
Lemma span_of_inserts (mem s : list byte) off :
  (off + length s <= length mem)%nat ->
  take (length s) (drop off (list_inserts off s mem)) = s.
Proof.
  intros Hfit. apply list_eq. intros i.
  destruct (Nat.lt_ge_cases i (length s)) as [Hi|Hi].
  - rewrite lookup_take_lt, lookup_drop by exact Hi.
    rewrite list_lookup_inserts by (rewrite ?length_inserts; lia).
    f_equal. lia.
  - rewrite lookup_take_ge by exact Hi. symmetry.
    apply lookup_ge_None_2. exact Hi.
Qed.

(** A block copied below [off'] does not change what lies from [off'] on. *)
Lemma drop_inserts_below (mem s : list byte) off off' :
  (off + length s <= off')%nat ->
  drop off' (list_inserts off s mem) = drop off' mem.
Proof.
  intros Hbelow. apply list_eq. intros i. rewrite !lookup_drop.
  apply list_lookup_inserts_ge. lia.
Qed.

Lemma take_add (data : list byte) a b :
  take (a + b) data = take a data ++ take b (drop a data).
Proof.
  rewrite <- (take_drop a (take (a + b) data)).
  rewrite take_take, Nat.min_l by lia.
  rewrite <- take_drop_commute. reflexivity.
Qed.

(** Two block copies, the first up to the end of the memory and the second
    at its start, read back as the source and are one write around the
    ring. *)
Lemma two_spans_memory (mem data : list byte) (off len1 l1 l2 : nat) :
  (off + len1 = length mem)%nat ->
  (l1 <= len1)%nat ->
  (l2 <= off)%nat ->
  l2 = 0%nat \/ l1 = len1 ->
  (l1 + l2 <= length data)%nat ->
  let mem' := list_inserts 0 (take l2 (drop l1 data))
                (list_inserts off (take l1 data) mem) in
  take l1 (drop off mem') ++ take l2 (drop 0 mem') = take (l1 + l2) data
  /\ mem' = ring_write mem off (take (l1 + l2) data).
Proof.
  intros Hend Hl1 Hl2 Hcut Hdata.
  set (s1 := take l1 data). set (s2 := take l2 (drop l1 data)).
  assert (Hs1 : length s1 = l1).
  { unfold s1. rewrite length_take. lia. }
  assert (Hs2 : length s2 = l2).
  { unfold s2. rewrite length_take, length_drop. lia. }
  set (m1 := list_inserts off s1 mem).
  assert (Hm1 : length m1 = length mem) by apply length_inserts.
  intros mem'. change mem' with (list_inserts 0 s2 m1). clear mem'.
  rewrite take_add. fold s1 s2. split.
  - f_equal.
    + rewrite (drop_inserts_below m1 s2 0 off) by lia.
      rewrite <- Hs1 at 1. apply span_of_inserts. lia.
    + rewrite <- Hs2 at 1. apply (span_of_inserts m1 s2 0). lia.
  - rewrite ring_write_app, (ring_write_contiguous s1 mem off) by lia.
    fold m1.
    rewrite Hs1. destruct Hcut as [->| ->].
    + assert (s2 = []) as -> by (destruct s2; [reflexivity|discriminate]).
      reflexivity.
    + rewrite Hend, <- Hm1.
      change (ring_write m1 (length m1) s2)
        with (ring_write m1 (0 + length m1) s2).
      rewrite (ring_write_lap s2 m1 0).
      rewrite ring_write_contiguous by lia. reflexivity.
Qed.

(** ** A pass whose lock succeeds *)

(** The pass written out, for any spans that lie inside the sample memory. *)
Lemma pass_locked mem st dev data n play write sp :
  live mem st ->
  0 < n < 2 ^ 31 ->
  n <= Z.of_nat (length data) ->
  GetCurrentPosition dev = Some (play, write) ->
  0 <= play < nSampleBufferSize st ->
  Z.min (space st play) n <> 0 ->
  Lock dev (dwWriteOffset st) (Z.min (space st play) n) 0 = Some sp ->
  0 <= pvWrite1 sp -> 0 <= dwLength1 sp ->
  pvWrite1 sp + dwLength1 sp <= nSampleBufferSize st ->
  0 <= pvWrite2 sp -> 0 <= dwLength2 sp ->
  pvWrite2 sp + dwLength2 sp <= nSampleBufferSize st ->
  let l1 := Z.min (dwLength1 sp) n in
  let l2 := Z.min (dwLength2 sp) (n - l1) in
  let mem' := list_inserts (Z.to_nat (pvWrite2 sp))
                (take (Z.to_nat l2) (drop (Z.to_nat l1) data))
                (list_inserts (Z.to_nat (pvWrite1 sp))
                   (take (Z.to_nat l1) data) mem) in
  let st' := set_dwWriteOffset
               ((dwWriteOffset st + l1 + l2) mod nSampleBufferSize st)
               (call (EvUnlock (pvWrite1 sp) l1 (pvWrite2 sp) l2)
                  (set_memory mem'
                     (call (EvLock (dwWriteOffset st)
                              (Z.min (space st play) n) 0)
                        (call EvGetCurrentPosition st)))) in
  AddData_pass dev st data n
  = if n - (l1 + l2) =? 0
    then Some (Break, st', drop (Z.to_nat (l1 + l2)) data, n - (l1 + l2))
    else Some (Continue, call (EvSleep 2) st',
               drop (Z.to_nat (l1 + l2)) data, n - (l1 + l2)).
Proof.
  intros Hlive Hn Hdata Hpos Hplay Hk Hlock Hp1 Hl1 Hb1 Hp2 Hl2 Hb2 l1 l2 mem' st'.
  pose proof Hlive as [Hp HB Hm HW].
  pose proof (space_range st play ltac:(lia)) as Hsp.
  unfold AddData_pass. rewrite Hp, Hpos.
  cbn [call nSampleBufferSize dwWriteOffset].
  rewrite nSpace_is_space by assumption.
  rewrite (u32_small (nSampleBufferSize st)) by lia.
  destruct (Z.eqb_spec (nSampleBufferSize st) 0) as [E|_]; [lia|].
  destruct (Z.eqb_spec (Z.min (space st play) n) 0) as [E|_]; [contradiction|].
  rewrite (u32_small (Z.min (space st play) n)) by lia.
  rewrite Hlock.
  rewrite write_spans_in_bounds;
    cbn [call set_memory nSampleBufferSize dwWriteOffset];
    [|rewrite u32_small; lia|lia..].
  fold l1 l2. fold mem'.
  rewrite (u32_small (nSampleBufferSize st)), (u32_small (dwWriteOffset st + l1 + l2))
    by lia.
  destruct (n - (l1 + l2) =? 0); reflexivity.
Qed.

(** ** Split-span writes *)

(** C5. When the lock returns two spans, the first from the write offset to
    the end of the physical buffer and the second at its start, a pass copies
    min(span 1, input left) bytes to span 1, then min(span 2, input left)
    bytes to span 2; span 1 followed by span 2 then holds the prefix of the
    source bytes in order, and the sample memory is what one contiguous
    write of that many bytes around the ring from the write offset gives. *)
Theorem split_span_write mem st dev data n play write sp :
  live mem st ->
  0 < n < 2 ^ 31 ->
  n <= Z.of_nat (length data) ->
  GetCurrentPosition dev = Some (play, write) ->
  0 <= play < nSampleBufferSize st ->
  Z.min (space st play) n <> 0 ->
  Lock dev (dwWriteOffset st) (Z.min (space st play) n) 0 = Some sp ->
  pvWrite1 sp = dwWriteOffset st ->
  pvWrite1 sp + dwLength1 sp = nSampleBufferSize st ->
  pvWrite2 sp = 0 ->
  0 <= dwLength2 sp <= dwWriteOffset st ->
  let l1 := Z.min (dwLength1 sp) n in
  let l2 := Z.min (dwLength2 sp) (n - l1) in
  exists flow st' mem',
    AddData_pass dev st data n
    = Some (flow, st', drop (Z.to_nat (l1 + l2)) data, n - (l1 + l2))
    /\ pdsb st' = Some mem'
    /\ span_bytes mem' (pvWrite1 sp) l1 ++ span_bytes mem' (pvWrite2 sp) l2
       = take (Z.to_nat (l1 + l2)) data
    /\ mem' = ring_write mem (Z.to_nat (dwWriteOffset st))
                (take (Z.to_nat (l1 + l2)) data).
Proof.
  intros Hlive Hn Hdata Hpos Hplay Hk Hlock Hp1 Hend Hp2 Hl2 l1 l2.
  pose proof Hlive as [Hp HB Hm HW].
  pose proof (pass_locked mem st dev data n play write sp
                Hlive Hn Hdata Hpos Hplay Hk Hlock) as Hpass.
  cbv zeta in Hpass. fold l1 l2 in Hpass.
  specialize (Hpass ltac:(lia) ltac:(lia) ltac:(lia) ltac:(lia) ltac:(lia)
                    ltac:(lia)).
  destruct (two_spans_memory mem data (Z.to_nat (dwWriteOffset st))
              (Z.to_nat (dwLength1 sp)) (Z.to_nat l1) (Z.to_nat l2))
    as [Hread Hring]; [lia..|].
  rewrite <- Z2Nat.inj_add in Hread, Hring by lia.
  unfold span_bytes. rewrite Hp1, Hp2.
  rewrite Hp1, Hp2 in Hpass. change (Z.to_nat 0) with 0%nat in Hpass |- *.
  destruct (n - (l1 + l2) =? 0); eexists _, _, _;
    (split; [exact Hpass|]); (split; [reflexivity|]);
    (split; [exact Hread|exact Hring]).
Qed.

Lemma split_span_write_witness :
  exists flow st' mem',
    AddData_pass (healthy 8 2) ring8 four_bytes 4
    = Some (flow, st', drop 4 four_bytes, 4 - (2 + 2))
    /\ pdsb st' = Some mem'
    /\ span_bytes mem' 6 2 ++ span_bytes mem' 0 2 = take 4 four_bytes
    /\ mem' = ring_write (replicate 8 x00) 6 (take 4 four_bytes).
Proof.
  apply (split_span_write (replicate 8 x00) ring8 (healthy 8 2) four_bytes 4
           2 2 (ds_lock 8 6 4 0) ring8_live);
    cbn; try reflexivity; try lia; try discriminate.
Defined.

(** ** The return value with a sound buffer *)

Lemma write_spans_keeps_buffer sp mem st data n st' data' n' :
  write_spans sp mem st data n = Some (st', data', n') ->
  exists mem', pdsb st' = Some mem'.
Proof.
  unfold write_spans. intros H.
  repeat match type of H with
         | context [if ?b then _ else _] => destruct b
         | context [match memcpy ?a ?b ?c ?d with _ => _ end] =>
           destruct (memcpy a b c d)
         | None = Some _ => discriminate H
         end;
    injection H as <- _ _; eexists; reflexivity.
Qed.

Lemma pass_keeps_buffer dev st data n flow st' data' n' :
  AddData_pass dev st data n = Some (flow, st', data', n') ->
  exists mem', pdsb st' = Some mem'.
Proof.
  unfold AddData_pass. intros H.
  destruct (pdsb st) as [mem|] eqn:Hp; [|discriminate].
  destruct (GetCurrentPosition dev) as [[play write]|].
  2:{ injection H as _ <- _ _. exists mem. exact Hp. }
  destruct (_ =? 0); [discriminate|].
  match type of H with
  | context [if ?b then _ else _] => destruct b
  end.
  - destruct (n =? 0); injection H as _ <- _ _; exists mem; exact Hp.
  - cbn [call dwWriteOffset] in H.
    destruct (Lock dev _ _ _) as [sp|].
    + destruct (write_spans _ _ _ _ _) as [[[st1 d1] n1]|] eqn:Hw; [|discriminate].
      apply write_spans_keeps_buffer in Hw. destruct Hw as [mem1 Hm1].
      destruct (n1 =? 0); injection H as _ <- _ _; exists mem1; exact Hm1.
    + destruct (n =? 0); injection H as _ <- _ _; exists mem; exact Hp.
Qed.

(** While the loop polls there is input left and the buffer is still
    there. *)
Lemma polling_keeps_buffer devs : forall st mem data n st1 data1 n1,
  pdsb st = Some mem ->
  AddData_loop devs st data n = StillPolling st1 data1 n1 ->
  0 < n1 /\ exists mem1, pdsb st1 = Some mem1.
Proof.
  induction devs as [|dev devs IH]; intros st mem data n st1 data1 n1 Hp H;
    cbn [AddData_loop] in H; destruct (Z.leb_spec n 0) as [Hle|Hgt];
    try discriminate.
  - injection H as <- <- <-. split; [lia|]. exists mem. exact Hp.
  - destruct (AddData_pass dev st data n) as [[[[flow st2] d2] n2]|] eqn:Hpass;
      [|discriminate].
    destruct flow; [discriminate|].
    destruct (pass_keeps_buffer _ _ _ _ _ _ _ _ Hpass) as [mem2 Hm2].
    exact (IH st2 mem2 d2 n2 st1 data1 n1 Hm2 H).
Qed.

(** More answers only matter to a loop that is still polling. *)
Lemma loop_app devs devs' : forall st data n,
  AddData_loop (devs ++ devs') st data n
  = match AddData_loop devs st data n with
    | StillPolling st1 data1 n1 => AddData_loop devs' st1 data1 n1
    | done => done
    end.
Proof.
  induction devs as [|dev devs IH]; intros st data n; cbn [app AddData_loop].
  - destruct (Z.leb_spec n 0) as [Hle|Hgt]; [|reflexivity].
    destruct devs'; cbn [AddData_loop];
      rewrite (proj2 (Z.leb_le n 0) Hle); reflexivity.
  - destruct (n <=? 0); [reflexivity|].
    destruct (AddData_pass dev st data n) as [[[[[] st2] d2] n2]|];
      [reflexivity|apply IH|reflexivity].
Qed.

(** A pass that finds room for all the input writes it around the ring and
    leaves the loop. *)
Lemma pass_writes_all mem st dev data n play write :
  live mem st ->
  0 < n < 2 ^ 31 ->
  n <= Z.of_nat (length data) ->
  GetCurrentPosition dev = Some (play, write) ->
  0 <= play < nSampleBufferSize st ->
  n <= space st play ->
  Lock dev (dwWriteOffset st) n 0
  = Some (ds_lock (nSampleBufferSize st) (dwWriteOffset st) n 0) ->
  exists st',
    AddData_pass dev st data n = Some (Break, st', drop (Z.to_nat n) data, 0)
    /\ pdsb st'
       = Some (ring_write mem (Z.to_nat (dwWriteOffset st))
                 (take (Z.to_nat n) data))
    /\ dwWriteOffset st' = (dwWriteOffset st + n) mod nSampleBufferSize st.
Proof.
  intros Hlive Hn Hdata Hpos Hplay Hroom Hlock.
  pose proof Hlive as [Hp HB Hm HW].
  pose proof (space_range st play ltac:(lia)) as Hsp.
  assert (Hk : Z.min (space st play) n = n) by lia.
  pose proof (pass_locked mem st dev data n play write
                (ds_lock (nSampleBufferSize st) (dwWriteOffset st) n 0)
                Hlive Hn Hdata Hpos Hplay) as Hpass.
  rewrite Hk in Hpass. specialize (Hpass ltac:(lia) Hlock).
  rewrite ds_lock_plain in Hpass.
  cbn [pvWrite1 dwLength1 pvWrite2 dwLength2] in Hpass.
  specialize (Hpass ltac:(lia) ltac:(lia) ltac:(lia) ltac:(lia) ltac:(lia)
                    ltac:(lia)).
  cbv zeta in Hpass.
  set (l1 := Z.min (Z.min n (nSampleBufferSize st - dwWriteOffset st)) n) in *.
  set (l2 := Z.min (n - Z.min n (nSampleBufferSize st - dwWriteOffset st))
                   (n - l1)) in *.
  assert (Hsum : l1 + l2 = n) by lia.
  rewrite Hsum, Z.sub_diag in Hpass. cbn [Z.eqb] in Hpass.
  destruct (two_spans_memory mem data (Z.to_nat (dwWriteOffset st))
              (Z.to_nat (nSampleBufferSize st - dwWriteOffset st))
              (Z.to_nat l1) (Z.to_nat l2))
    as [_ Hring]; [lia..|].
  rewrite <- Z2Nat.inj_add, Hsum in Hring by lia.
  change (Z.to_nat 0) with 0%nat in Hpass.
  eexists. split; [exact Hpass|]. split.
  - cbn. f_equal. exact Hring.
  - cbn. f_equal. lia.
Qed.

(** C1, as the code has it.  With a sound buffer a call that returns,
    returns true: when the loop was left with all bytes written, and as well
    when a failed cursor query ended it early; the bytes committed before
    the failure stay in the buffer and the write offset stays where they
    end.  The call never returns false.  A call whose first pass finds room
    for all the input does return, with all of it written. *)
Theorem AddData_returns_true fps host st mem data n :
  pdsb st = Some mem ->
  (forall ret st', AddData fps host st data n = Returned ret st' -> ret = true)
  /\ (forall st1 data1 n1,
        AddData_loop (answers host) st data n = LeftLoop st1 data1 n1 ->
        AddData fps host st data n = Returned true st1)
  /\ (forall st1 data1 n1 dev,
        AddData_loop (answers host) st data n = StillPolling st1 data1 n1 ->
        GetCurrentPosition dev = None ->
        0 < n1
        /\ AddData_loop (answers host ++ [dev]) st data n
           = LeftLoop (call EvGetCurrentPosition st1) data1 n1
        /\ AddData fps
             (MkHost (GetOption_speed host) (timeSetEvent host)
                     (answers host ++ [dev]))
             st data n
           = Returned true (call EvGetCurrentPosition st1)
        /\ pdsb (call EvGetCurrentPosition st1) = pdsb st1
        /\ dwWriteOffset (call EvGetCurrentPosition st1) = dwWriteOffset st1)
  /\ (forall dev devs play write,
        answers host = dev :: devs ->
        live mem st ->
        0 < n < 2 ^ 31 ->
        n <= Z.of_nat (length data) ->
        GetCurrentPosition dev = Some (play, write) ->
        0 <= play < nSampleBufferSize st ->
        n <= space st play ->
        Lock dev (dwWriteOffset st) n 0
        = Some (ds_lock (nSampleBufferSize st) (dwWriteOffset st) n 0) ->
        exists st',
          AddData fps host st data n = Returned true st'
          /\ written_in_full (AddData_loop (answers host) st data n)
          /\ pdsb st'
             = Some (ring_write mem (Z.to_nat (dwWriteOffset st))
                       (take (Z.to_nat n) data))).
Proof.
  intros Hp. unfold AddData. rewrite Hp. split; [|split; [|split]].
  4:{ intros dev devs play write -> Hlive Hn Hdata Hpos Hplay Hroom Hlock.
      destruct (pass_writes_all mem st dev data n play write
                  Hlive Hn Hdata Hpos Hplay Hroom Hlock)
        as (st' & Hpass & Hmem & _).
      exists st'. cbn [AddData_loop].
      destruct (Z.leb_spec n 0) as [Hle|_]; [lia|].
      rewrite Hpass. split; [reflexivity|]. split; [cbn; lia|exact Hmem]. }
  - intros ret st' H.
    destruct (AddData_loop (answers host) st data n); try discriminate.
    injection H as <- _. reflexivity.
  - intros st1 data1 n1 H. rewrite H. reflexivity.
  - intros st1 data1 n1 dev H Hfail.
    destruct (polling_keeps_buffer _ _ _ _ _ _ _ _ Hp H) as [Hn1 [mem1 Hm1]].
    assert (Hloop : AddData_loop (answers host ++ [dev]) st data n
                    = LeftLoop (call EvGetCurrentPosition st1) data1 n1).
    { rewrite loop_app, H. cbn [AddData_loop].
      destruct (Z.leb_spec n1 0) as [Hle|_]; [lia|].
      unfold AddData_pass. rewrite Hm1, Hfail. reflexivity. }
    cbn [answers]. rewrite Hloop. auto.
Qed.

Lemma AddData_returns_true_witness :
  exists st1,
    AddData 50 (MkHost 100 0 ([healthy 8 7] ++ [lost])) ring8 four_bytes 4
    = Returned true (call EvGetCurrentPosition st1)
    /\ pdsb st1
       = Some [x00; x00; x00; x00; x00; x00; x61; x00]
    /\ dwWriteOffset st1 = 7.
Proof.
  eexists. split.
  - refine (proj1 (proj2 (proj2
      (proj1 (proj2 (proj2 (AddData_returns_true 50 (MkHost 100 0 [healthy 8 7])
                              ring8 (replicate 8 x00) four_bytes 4 eq_refl)))
         _ [x62; x63; x64] 3 lost _ eq_refl)))).
    vm_compute. reflexivity.
  - split; reflexivity.
Defined.

(** C1 as stated fails: the cursor query fails in the first pass of a call
    with four bytes to write; nothing is written, and the call returns
    true. *)
Lemma AddData_true_with_nothing_written :
  AddData 50 (MkHost 100 0 [lost]) ring8 four_bytes 4
  = Returned true (call EvGetCurrentPosition ring8)
  /\ AddData_loop [lost] ring8 four_bytes 4
     = LeftLoop (call EvGetCurrentPosition ring8) four_bytes 4
  /\ ~ written_in_full (AddData_loop [lost] ring8 four_bytes 4)
  /\ ~ (forall ret st',
          AddData 50 (MkHost 100 0 [lost]) ring8 four_bytes 4
          = Returned ret st' ->
          (ret = true
           <-> written_in_full (AddData_loop [lost] ring8 four_bytes 4))).
Proof.
  assert (Hnot : ~ written_in_full (AddData_loop [lost] ring8 four_bytes 4)).
  { cbn. lia. }
  split; [reflexivity|]. split; [reflexivity|]. split; [exact Hnot|].
  intros H. apply Hnot. eapply H; reflexivity.
Qed.

(** ** The frame timer *)

(** The interval when the divisor of line 115 is at least one. *)
Lemma frame_time_defined fps speed :
  100 <= fps * speed < 2 ^ 31 ->
  frame_time fps speed = Some (Z.max 1 (1000 / (fps * speed / 100))).
Proof.
  intros H. unfold frame_time. rewrite s32_small by lia.
  rewrite Z.quot_div_nonneg by lia.
  assert (Hd : 1 <= fps * speed / 100).
  { apply Z.div_le_lower_bound; lia. }
  destruct (Z.eqb_spec (fps * speed / 100) 0) as [E|_]; [lia|].
  rewrite Z.quot_div_nonneg by lia.
  assert (Hq : 0 <= 1000 / (fps * speed / 100) <= 1000).
  { split; [apply Z.div_pos; lia|].
    apply Z.div_le_upper_bound; nia. }
  rewrite u32_small by lia.
  destruct (Z.eqb_spec (1000 / (fps * speed / 100)) 0) as [E|E];
    f_equal; lia.
Qed.

(** C3, as the code has it.  Whenever framesPerSecond * speedPercent / 100
    is at least 1, the interval is 1000 / (framesPerSecond * speedPercent /
    100) in integer arithmetic, floored to 1 ms.  At 50 frames per second it
    is defined for every speedPercent from 2 on, it is 20 at 100 and 10 at
    200, and it is 1 (not 0) from 2002 on. *)
Theorem frame_time_floor fps speed :
  100 <= fps * speed < 2 ^ 31 ->
  frame_time fps speed = Some (Z.max 1 (1000 / (fps * speed / 100)))
  /\ (exists dwTime, frame_time fps speed = Some dwTime /\ 1 <= dwTime <= 1000)
  /\ frame_time 50 100 = Some 20
  /\ frame_time 50 200 = Some 10
  /\ (fps = 50 -> 2002 <= speed -> frame_time fps speed = Some 1).
Proof.
  intros H. pose proof (frame_time_defined fps speed H) as Hft.
  assert (Hd : 1 <= fps * speed / 100).
  { apply Z.div_le_lower_bound; lia. }
  assert (Hq : 0 <= 1000 / (fps * speed / 100) <= 1000).
  { split; [apply Z.div_pos; lia|].
    apply Z.div_le_upper_bound; nia. }
  split; [exact Hft|]. split.
  { eexists. split; [exact Hft|]. lia. }
  split; [reflexivity|]. split; [reflexivity|].
  intros -> Hbig. rewrite Hft. f_equal.
  assert (1001 <= 50 * speed / 100).
  { apply Z.div_le_lower_bound; lia. }
  rewrite Z.div_small by lia. reflexivity.
Qed.

Lemma frame_time_floor_witness :
  100 <= 50 * 2 < 2 ^ 31
  /\ frame_time 50 2 = Some (Z.max 1 (1000 / (50 * 2 / 100))).
Proof.
  split; [lia|]. apply (frame_time_floor 50 2). lia.
Defined.

(** C3 as stated fails at speedPercent = 1: 50 * 1 / 100 is 0 in [int]
    arithmetic, so line 115 divides by zero and no interval is computed. *)
Lemma frame_time_speed_1_divides_by_zero :
  s32 (50 * 1) ÷ 100 = 0
  /\ frame_time 50 1 = None
  /\ frame_time 50 1 <> Some 1.
Proof. split; [reflexivity|]. split; [reflexivity|discriminate]. Qed.

(** ** Timer mode *)

Lemma last_calls e st : last (calls (call e st)) = Some e.
Proof. cbn. apply last_snoc. Qed.

(** C4, as the code has it.  With no sound buffer a call never returns
    true and never touches the write offset.  When the frame time is
    defined, it makes the wait on [hEvent] its last call and returns false
    once the wait ends: it ends when the handle is NULL, a signal is pending
    or a timer is running, and the signal is then used up.  With a live
    event, no signal pending and no timer running the call stays in the
    wait and does not return. *)
Theorem AddData_timer_mode fps host st data n :
  pdsb st = None ->
  (forall st', AddData fps host st data n <> Returned true st')
  /\ (forall dwTime,
        frame_time fps (GetOption_speed host) = Some dwTime ->
        exists st',
          (AddData fps host st data n = Returned false st'
           \/ AddData fps host st data n = Blocked st')
          /\ dwWriteOffset st' = dwWriteOffset st
          /\ pdsb st' = None
          /\ last (calls st')
             = Some (EvWaitForSingleObject (hEvent st) INFINITE)
          /\ (hEvent st = 0 \/ event_signalled st = true \/ hTimer st' <> 0 ->
              AddData fps host st data n = Returned false st')
          /\ (hEvent st <> 0 -> event_signalled st = false ->
              hTimer st' = 0 ->
              AddData fps host st data n = Blocked st')
          /\ (hEvent st <> 0 ->
              AddData fps host st data n = Returned false st' ->
              event_signalled st' = false)).
Proof.
  intros Hp. unfold AddData, AddData_timer. rewrite Hp. split.
  - intros st'. destruct (frame_time fps (GetOption_speed host)); [|discriminate].
    destruct (wait_for_event _); discriminate.
  - intros dwTime ->.
    set (armed := if dwTime =? dwTimer st then st else _).
    assert (Harmed : dwWriteOffset armed = dwWriteOffset st
                     /\ pdsb armed = None
                     /\ hEvent armed = hEvent st
                     /\ event_signalled armed = event_signalled st).
    { unfold armed. destruct (dwTime =? dwTimer st); [auto|].
      destruct (hTimer st =? 0); cbn [call set_timer hTimer];
        destruct (timeSetEvent host =? 0); cbn; auto. }
    destruct Harmed as (Hoff & Hbuf & Hev & Hsig).
    set (waiting := call (EvWaitForSingleObject (hEvent armed) INFINITE) armed).
    unfold wait_for_event.
    change (hEvent waiting) with (hEvent armed).
    change (event_signalled waiting) with (event_signalled armed).
    change (hTimer waiting) with (hTimer armed).
    rewrite Hev, Hsig.
    assert (Hlast : last (calls waiting)
                    = Some (EvWaitForSingleObject (hEvent st) INFINITE)).
    { unfold waiting. rewrite last_calls, Hev. reflexivity. }
    destruct (Z.eqb_spec (hEvent st) 0) as [E0|E0].
    { exists waiting. split; [left; reflexivity|].
      split; [exact Hoff|]. split; [exact Hbuf|]. split; [exact Hlast|].
      split; [reflexivity|]. split; intros; contradiction. }
    destruct (event_signalled st) eqn:Es.
    { exists (set_event false waiting). split; [left; reflexivity|].
      split; [exact Hoff|]. split; [exact Hbuf|]. split; [exact Hlast|].
      split; [reflexivity|]. split; [intros; discriminate|reflexivity]. }
    destruct (Z.eqb_spec (hTimer armed) 0) as [Et|Et].
    { exists waiting. split; [right; reflexivity|].
      split; [exact Hoff|]. split; [exact Hbuf|]. split; [exact Hlast|].
      split; [|split; [reflexivity|intros; discriminate]].
      intros [H|[H|H]]; [lia|discriminate|].
      exfalso. apply H. exact Et. }
    exists (set_event false (TimeCallback waiting)).
    split; [left; reflexivity|].
    split; [exact Hoff|]. split; [exact Hbuf|]. split; [exact Hlast|].
    split; [reflexivity|]. split; [|reflexivity].
    intros _ _ H. exfalso. apply Et. exact H.
Qed.

Lemma AddData_timer_mode_witness :
  (forall st', AddData 50 (MkHost 100 5 []) pacing four_bytes 4
               <> Returned true st')
  /\ exists st',
       (AddData 50 (MkHost 100 5 []) pacing four_bytes 4 = Returned false st'
        \/ AddData 50 (MkHost 100 5 []) pacing four_bytes 4 = Blocked st')
       /\ dwWriteOffset st' = dwWriteOffset pacing
       /\ pdsb st' = None
       /\ last (calls st') = Some (EvWaitForSingleObject (hEvent pacing) INFINITE)
       /\ (hEvent pacing = 0 \/ event_signalled pacing = true \/ hTimer st' <> 0 ->
           AddData 50 (MkHost 100 5 []) pacing four_bytes 4 = Returned false st')
       /\ (hEvent pacing <> 0 -> event_signalled pacing = false ->
           hTimer st' = 0 ->
           AddData 50 (MkHost 100 5 []) pacing four_bytes 4 = Blocked st')
       /\ (hEvent pacing <> 0 ->
           AddData 50 (MkHost 100 5 []) pacing four_bytes 4
           = Returned false st' ->
           event_signalled st' = false).
Proof.
  pose (T := AddData_timer_mode 50 (MkHost 100 5 []) pacing four_bytes 4 eq_refl).
  exact (conj (proj1 T) (proj2 T 20 eq_refl)).
Defined.

(** C4 as stated fails: with no sound buffer, no signal pending and a
    [timeSetEvent] that fails, the call at 100% speed never returns; it
    stays in the wait, so it does not return false. *)
Lemma AddData_timer_mode_may_not_return :
  AddData 50 (MkHost 100 0 []) pacing four_bytes 4
  = Blocked (MkAudio None 0 0 7 0 20 false
               [EvTimeSetEvent 20; EvMessage;
                EvWaitForSingleObject 7 INFINITE])
  /\ (forall st', AddData 50 (MkHost 100 0 []) pacing four_bytes 4
                  <> Returned false st')
  /\ ~ (forall host st data n,
          pdsb st = None ->
          exists st', AddData 50 host st data n = Returned false st').
Proof.
  split; [reflexivity|]. split; [discriminate|].
  intros H.
  destruct (H (MkHost 100 0 []) pacing four_bytes 4 eq_refl) as [st' Hret].
  discriminate Hret.
Qed.

(** C8. When [timeSetEvent] fails, [dwTimer] already holds the new interval
    and [hTimer] is zero.  From any such state a call that computes the same
    interval makes the wait its only call: it does not start a timer, it
    keeps [dwTimer] and the zero [hTimer], and with no signal pending it
    stays in the wait. *)
Theorem timer_failure_not_retried fps host st data n dwTime :
  pdsb st = None ->
  frame_time fps (GetOption_speed host) = Some dwTime ->
  dwTime <> dwTimer st ->
  timeSetEvent host = 0 ->
  (exists st1,
     (AddData fps host st data n = Returned false st1
      \/ AddData fps host st data n = Blocked st1)
     /\ In (EvTimeSetEvent dwTime) (calls st1)
     /\ pdsb st1 = None /\ dwTimer st1 = dwTime /\ hTimer st1 = 0)
  /\ (forall host' st2 data' n',
        pdsb st2 = None -> dwTimer st2 = dwTime -> hTimer st2 = 0 ->
        frame_time fps (GetOption_speed host') = Some dwTime ->
        exists st3,
          (AddData fps host' st2 data' n' = Returned false st3
           \/ AddData fps host' st2 data' n' = Blocked st3)
          /\ calls st3
             = calls st2 ++ [EvWaitForSingleObject (hEvent st2) INFINITE]
          /\ pdsb st3 = None /\ dwTimer st3 = dwTime /\ hTimer st3 = 0
          /\ (hEvent st2 <> 0 -> event_signalled st2 = false ->
              AddData fps host' st2 data' n' = Blocked st3)).
Proof.
  intros Hp Hft Hne Hfail. split.
  - unfold AddData, AddData_timer. rewrite Hp, Hft, Hfail.
    destruct (Z.eqb_spec dwTime (dwTimer st)) as [E|_]; [contradiction|].
    set (killed := if hTimer st =? 0 then st else _).
    assert (Hk : pdsb killed = None).
    { unfold killed. destruct (hTimer st =? 0); exact Hp. }
    cbn [call set_timer hTimer Z.eqb].
    set (waiting := call _ (call EvMessage _)).
    assert (Hin : In (EvTimeSetEvent dwTime) (calls waiting)).
    { cbn. rewrite !in_app_iff. left. left. right. left. reflexivity. }
    unfold wait_for_event.
    change (hEvent waiting) with (hEvent killed).
    change (event_signalled waiting) with (event_signalled killed).
    change (hTimer waiting) with 0. cbn [Z.eqb].
    destruct (hEvent killed =? 0).
    { exists waiting. split; [left; reflexivity|]. repeat split; auto. }
    destruct (event_signalled killed).
    { exists (set_event false waiting). split; [left; reflexivity|].
      repeat split; auto. }
    exists waiting. split; [right; reflexivity|]. repeat split; auto.
  - intros host' st2 data' n' Hp2 Hd2 Ht2 Hft2.
    unfold AddData, AddData_timer. rewrite Hp2, Hft2, Hd2, Z.eqb_refl.
    set (waiting := call _ st2).
    unfold wait_for_event. cbn [waiting call hEvent event_signalled hTimer].
    fold waiting. rewrite Ht2. cbn [Z.eqb].
    destruct (Z.eqb_spec (hEvent st2) 0) as [E|E].
    { exists waiting. split; [left; reflexivity|]. repeat split; auto.
      intros; contradiction. }
    destruct (event_signalled st2) eqn:Es.
    { exists (set_event false waiting). split; [left; reflexivity|].
      repeat split; auto. intros; discriminate. }
    exists waiting. split; [right; reflexivity|]. repeat split; auto.
Qed.

Lemma timer_failure_not_retried_witness :
  (exists st1,
     (AddData 50 (MkHost 100 0 []) pacing four_bytes 4 = Returned false st1
      \/ AddData 50 (MkHost 100 0 []) pacing four_bytes 4 = Blocked st1)
     /\ In (EvTimeSetEvent 20) (calls st1)
     /\ pdsb st1 = None /\ dwTimer st1 = 20 /\ hTimer st1 = 0)
  /\ AddData 50 (MkHost 100 0 []) pacing four_bytes 4
     = Blocked (MkAudio None 0 0 7 0 20 false
                  [EvTimeSetEvent 20; EvMessage;
                   EvWaitForSingleObject 7 INFINITE]).
Proof.
  split; [|reflexivity].
  apply (proj1 (timer_failure_not_retried 50 (MkHost 100 0 []) pacing
                  four_bytes 4 20 eq_refl eq_refl ltac:(discriminate) eq_refl)).
Defined.

(** ** Nothing to write *)

(** C9. With a sound buffer and a length of zero or less the call returns
    true at once: no call is made and no static changes. *)
Theorem AddData_nothing_to_write fps host st mem data n :
  pdsb st = Some mem ->
  n <= 0 ->
  AddData fps host st data n = Returned true st
  /\ AddData_loop (answers host) st data n = LeftLoop st data n.
Proof.
  intros Hp Hn. unfold AddData. rewrite Hp.
  assert (H : AddData_loop (answers host) st data n = LeftLoop st data n).
  { destruct (answers host); cbn [AddData_loop];
      rewrite (proj2 (Z.leb_le n 0) Hn); reflexivity. }
  rewrite H. split; reflexivity.
Qed.

Lemma AddData_nothing_to_write_witness :
  AddData 50 (MkHost 100 0 [healthy 8 2]) ring8 four_bytes 0
  = Returned true ring8
  /\ AddData_loop [healthy 8 2] ring8 four_bytes 0 = LeftLoop ring8 four_bytes 0.
Proof.
  apply (AddData_nothing_to_write 50 (MkHost 100 0 [healthy 8 2]) ring8
           (replicate 8 x00) four_bytes 0 eq_refl).
  lia.
Defined.

(** ** Silence *)

Lemma zero_fill (mem : list byte) :
  list_inserts 0 (replicate (length mem) x00) mem = replicate (length mem) x00.
Proof.
  rewrite <- (app_nil_r mem) at 2.
  rewrite list_inserts_0_r by apply length_replicate.
  apply app_nil_r.
Qed.

(** C6, as the code has it.  With a sound buffer whose whole-buffer lock
    succeeds, Silence locks the entire buffer, fills all of it with zero,
    unlocks it, and then sets the write offset to the play cursor just read;
    without a sound buffer it does nothing. *)
Theorem Silence_zero_fills dev garbage st :
  (pdsb st = None -> Silence dev garbage st = Some st)
  /\ (forall mem play write,
        pdsb st = Some mem ->
        Z.of_nat (length mem) = nSampleBufferSize st ->
        Lock dev 0 0 DSBLOCK_ENTIREBUFFER
        = Some (ds_lock (nSampleBufferSize st) 0 0 DSBLOCK_ENTIREBUFFER) ->
        GetCurrentPosition dev = Some (play, write) ->
        exists st',
          Silence dev garbage st = Some st'
          /\ pdsb st' = Some (replicate (length mem) x00)
          /\ calls st'
             = calls st ++ [EvLock 0 0 DSBLOCK_ENTIREBUFFER;
                            EvUnlock 0 (nSampleBufferSize st) 0 0;
                            EvGetCurrentPosition]
          /\ dwWriteOffset st' = play
          /\ nSampleBufferSize st' = nSampleBufferSize st).
Proof.
  split.
  - intros Hp. unfold Silence. rewrite Hp. reflexivity.
  - intros mem play write Hp Hlen Hlock Hpos.
    unfold Silence. rewrite Hp, Hlock, Hpos.
    assert (Hsp : ds_lock (nSampleBufferSize st) 0 0 DSBLOCK_ENTIREBUFFER
                  = MkSpans 0 (nSampleBufferSize st) 0 0).
    { unfold ds_lock, DSBLOCK_ENTIREBUFFER.
      change (Z.testbit 2 1) with true. cbv beta iota zeta.
      rewrite Z.sub_0_r, Z.min_id, Z.sub_diag. reflexivity. }
    rewrite Hsp. cbn [pvWrite1 dwLength1].
    rewrite memset_in_bounds by lia.
    rewrite <- Hlen, Nat2Z.id. change (Z.to_nat 0) with 0%nat.
    rewrite zero_fill. eexists. split; [reflexivity|].
    cbn. rewrite <- !app_assoc. auto.
Qed.

Lemma Silence_zero_fills_witness :
  exists st',
    Silence (healthy 4 3) 0 playing = Some st'
    /\ pdsb st' = Some (replicate (length four_bytes) x00)
    /\ calls st'
       = calls playing ++ [EvLock 0 0 DSBLOCK_ENTIREBUFFER;
                           EvUnlock 0 (nSampleBufferSize playing) 0 0;
                           EvGetCurrentPosition]
    /\ dwWriteOffset st' = 3
    /\ nSampleBufferSize st' = nSampleBufferSize playing.
Proof.
  apply (proj2 (Silence_zero_fills (healthy 4 3) 0 playing) four_bytes 3 3);
    reflexivity.
Defined.

(** C6 as stated fails when the lock fails: the buffer is left as it was,
    and nothing is unlocked. *)
Lemma Silence_lock_failure_keeps_sound :
  Silence (unlockable 3) 0 playing
  = Some (MkAudio (Some four_bytes) 4 3 0 0 0 false
            [EvLock 0 0 DSBLOCK_ENTIREBUFFER; EvGetCurrentPosition])
  /\ four_bytes <> replicate 4 x00.
Proof. split; [reflexivity|discriminate]. Qed.

(** C10. With a sound buffer, Silence sets the write offset to the play
    cursor it reads whether or not the lock succeeded: after a failed lock
    the buffer is not zero-filled, and the offset is the play cursor all the
    same.  (The value is that of the local [dwPlayCursor]: the play cursor
    when the query succeeds.) *)
Theorem Silence_resyncs_without_lock dev garbage st mem :
  pdsb st = Some mem ->
  let dwPlayCursor :=
    match GetCurrentPosition dev with
    | Some (play, _) => play
    | None => garbage
    end in
  (forall st', Silence dev garbage st = Some st' ->
               dwWriteOffset st' = dwPlayCursor)
  /\ (forall play write,
        GetCurrentPosition dev = Some (play, write) -> dwPlayCursor = play)
  /\ (Lock dev 0 0 DSBLOCK_ENTIREBUFFER = None ->
      Silence dev garbage st
      = Some (set_dwWriteOffset dwPlayCursor
                (call EvGetCurrentPosition
                   (call (EvLock 0 0 DSBLOCK_ENTIREBUFFER) st)))
      /\ pdsb (set_dwWriteOffset dwPlayCursor
                 (call EvGetCurrentPosition
                    (call (EvLock 0 0 DSBLOCK_ENTIREBUFFER) st)))
         = Some mem).
Proof.
  intros Hp dwPlayCursor. unfold Silence. rewrite Hp. fold dwPlayCursor.
  split; [|split].
  - intros st' H.
    destruct (Lock dev 0 0 DSBLOCK_ENTIREBUFFER) as [sp|].
    + destruct (memset mem (pvWrite1 sp) x00 (dwLength1 sp)); [|discriminate].
      injection H as <-. reflexivity.
    + injection H as <-. reflexivity.
  - intros play write H. unfold dwPlayCursor. rewrite H. reflexivity.
  - intros ->. split; [reflexivity|exact Hp].
Qed.

Lemma Silence_resyncs_without_lock_witness :
  Silence (unlockable 3) 0 playing
  = Some (set_dwWriteOffset 3
            (call EvGetCurrentPosition
               (call (EvLock 0 0 DSBLOCK_ENTIREBUFFER) playing)))
  /\ pdsb (set_dwWriteOffset 3
             (call EvGetCurrentPosition
                (call (EvLock 0 0 DSBLOCK_ENTIREBUFFER) playing)))
     = Some four_bytes.
Proof.
  apply (proj2 (proj2 (Silence_resyncs_without_lock (unlockable 3) 0 playing
                         four_bytes eq_refl))).
  reflexivity.
Defined.

(** ** The partial-space scenario *)

(** C7. With a buffer of 1000 bytes, the write offset at 900 and the play
    cursor at 950, a call with 200 bytes finds (1000 + 950 - 900) mod 1000 =
    50 bytes of space in its first pass, locks and commits exactly those 50
    bytes, sleeps 2 ms and goes round the loop again with the other 150. *)
Theorem partial_space_scenario mem st data dev devs write :
  live mem st ->
  nSampleBufferSize st = 1000 ->
  dwWriteOffset st = 900 ->
  200 <= Z.of_nat (length data) ->
  GetCurrentPosition dev = Some (950, write) ->
  Lock dev 900 50 0 = Some (ds_lock 1000 900 50 0) ->
  space st 950 = 50
  /\ exists st',
       AddData_pass dev st data 200
       = Some (Continue, call (EvSleep 2) st', drop 50 data, 150)
       /\ calls st'
          = calls st ++ [EvGetCurrentPosition; EvLock 900 50 0;
                         EvUnlock 900 50 0 0]
       /\ pdsb st' = Some (list_inserts 900 (take 50 data) mem)
       /\ dwWriteOffset st' = 950
       /\ AddData_loop (dev :: devs) st data 200
          = AddData_loop devs (call (EvSleep 2) st') (drop 50 data) 150
       /\ AddData_loop [dev] st data 200
          = StillPolling (call (EvSleep 2) st') (drop 50 data) 150.
Proof.
  intros Hlive HB HW Hdata Hpos Hlock.
  assert (Hsp : space st 950 = 50).
  { unfold space. rewrite HB, HW. reflexivity. }
  split; [exact Hsp|].
  pose proof (pass_locked mem st dev data 200 950 write (ds_lock 1000 900 50 0)
                Hlive ltac:(lia) ltac:(lia) Hpos ltac:(lia)) as Hpass.
  rewrite Hsp, HW, HB in Hpass.
  change (Z.min 50 200) with 50 in Hpass.
  specialize (Hpass ltac:(lia) Hlock).
  cbn [ds_lock pvWrite1 dwLength1 pvWrite2 dwLength2] in Hpass.
  change (Z.testbit 0 1) with false in Hpass. cbv beta iota zeta in Hpass.
  specialize (Hpass ltac:(lia) ltac:(lia) ltac:(lia) ltac:(lia) ltac:(lia)
                    ltac:(lia)).
  vm_compute (Z.min _ _) in Hpass.
  eexists. split; [exact Hpass|].
  split; [cbn; rewrite <- !app_assoc; reflexivity|].
  split; [reflexivity|]. split; [reflexivity|].
  split; cbn [AddData_loop]; rewrite Hpass; reflexivity.
Qed.

Lemma partial_space_scenario_witness :
  space ring1000 950 = 50
  /\ exists st',
       AddData_pass (healthy 1000 950) ring1000 (replicate 200 x61) 200
       = Some (Continue, call (EvSleep 2) st', drop 50 (replicate 200 x61), 150)
       /\ calls st'
          = calls ring1000 ++ [EvGetCurrentPosition; EvLock 900 50 0;
                               EvUnlock 900 50 0 0]
       /\ pdsb st'
          = Some (list_inserts 900 (take 50 (replicate 200 x61))
                    (replicate 1000 x00))
       /\ dwWriteOffset st' = 950
       /\ AddData_loop [healthy 1000 950; healthy 1000 200] ring1000
            (replicate 200 x61) 200
          = AddData_loop [healthy 1000 200] (call (EvSleep 2) st')
              (drop 50 (replicate 200 x61)) 150
       /\ AddData_loop [healthy 1000 950] ring1000 (replicate 200 x61) 200
          = StillPolling (call (EvSleep 2) st')
              (drop 50 (replicate 200 x61)) 150.
Proof.
  apply (partial_space_scenario (replicate 1000 x00) ring1000
           (replicate 200 x61) (healthy 1000 950) [healthy 1000 200] 950).
  - split; [reflexivity|cbn; lia|reflexivity|cbn; lia].
  - reflexivity.
  - reflexivity.
  - rewrite length_replicate. lia.
  - reflexivity.
  - reflexivity.
Defined.

(** ** Tearing down and setting up *)

Lemma Exit_spec fReInit_ s :
  let s' := (Exit fReInit_ s).1 in
  pds s' = false
  /\ pdsb (statics s') = None
  /\ hTimer (statics s') = 0
  /\ hEvent (statics s') = 0
  /\ dwTimer (statics s') = dwTimer (statics s)
  /\ dwWriteOffset (statics s') = dwWriteOffset (statics s)
  /\ nSampleBufferSize (statics s') = nSampleBufferSize (statics s)
  /\ (Exit fReInit_ s).2
     = match pdsb (statics s) with
       | Some _ => [CallReleaseBuffer]
       | None => []
       end
       ++ (if pds s then [CallReleaseDirectSound] else [])
       ++ (if hTimer (statics s) =? 0 then []
           else [CallOther (EvTimeKillEvent (hTimer (statics s)))])
       ++ (if hEvent (statics s) =? 0 then []
           else [CallCloseHandle (hEvent (statics s))]).
Proof.
  destruct s as [p [b sz off he ht dt sig cs]].
  unfold Exit, ExitDirectSound.
  destruct b as [mem|], p; cbn -[Z.eqb];
    destruct (Z.eqb_spec ht 0) as [Et|Et]; cbn -[Z.eqb];
    destruct (Z.eqb_spec he 0) as [Ee|Ee]; cbn -[Z.eqb];
    subst; repeat split; reflexivity.
Qed.

(** X1. Audio::Exit leaves every handle NULL, releases each thing it held once
    (the buffer before the device, then the timer, then the event), and
    keeps [dwTimer], [dwWriteOffset] and [nSampleBufferSize]. *)
Theorem Exit_releases_everything fReInit_ s :
  let s' := (Exit fReInit_ s).1 in
  pds s' = false
  /\ pdsb (statics s') = None
  /\ hTimer (statics s') = 0
  /\ hEvent (statics s') = 0
  /\ dwTimer (statics s') = dwTimer (statics s)
  /\ dwWriteOffset (statics s') = dwWriteOffset (statics s)
  /\ nSampleBufferSize (statics s') = nSampleBufferSize (statics s)
  /\ (Exit fReInit_ s).2
     = match pdsb (statics s) with
       | Some _ => [CallReleaseBuffer]
       | None => []
       end
       ++ (if pds s then [CallReleaseDirectSound] else [])
       ++ (if hTimer (statics s) =? 0 then []
           else [CallOther (EvTimeKillEvent (hTimer (statics s)))])
       ++ (if hEvent (statics s) =? 0 then []
           else [CallCloseHandle (hEvent (statics s))]).
Proof. apply Exit_spec. Qed.

(** X2. A second Exit makes no call and changes nothing. *)
Theorem Exit_twice r1 r2 s :
  Exit r2 (Exit r1 s).1 = ((Exit r1 s).1, []).
Proof.
  pose proof (Exit_spec r1 s) as H. cbv zeta in H.
  destruct H as (Hpds & Hbuf & Ht & He & _).
  destruct (Exit r1 s).1 as [p [b sz off he ht dt sig cs]].
  cbn [pds statics pdsb hTimer hEvent] in *. subst. reflexivity.
Qed.

Lemma Init_spec FREQ BLOCK FPS env fFirstInit_ s ret s' c :
  Init FREQ BLOCK FPS env fFirstInit_ s = Some (ret, s', c) ->
  ret = true
  /\ hTimer (statics s') = 0
  /\ dwTimer (statics s') = dwTimer (statics s)
  /\ dwWriteOffset (statics s') = dwWriteOffset (statics s)
  /\ match pdsb (statics s') with
     | None =>
       hEvent (statics s') = CreateEvent env
       /\ event_signalled (statics s') = false
       /\ exists c1, c = (Exit true s).2 ++ c1 ++ [CallCreateEvent]
     | Some _ =>
       hEvent (statics s') = 0
       /\ pds s' = true
       /\ GetOption_sound env = true
       /\ c = (Exit true s).2
              ++ [CallDirectSoundCreate; CallSetCooperativeLevel;
                  CallCreateSoundBuffer (u32 (nSampleBufferSize (statics s')));
                  CallPlay]
     end.
Proof.
  unfold Init.
  pose proof (Exit_spec true s) as H. cbv zeta in H.
  destruct H as (Hpds & Hbuf & Ht & He & Hdt & Hoff & _).
  destruct (Exit true s) as [[p0 [b0 sz0 off0 he0 ht0 dt0 sig0 cs0]] c0].
  cbn [fst snd pds statics pdsb hTimer hEvent dwTimer dwWriteOffset] in *.
  subst p0 b0 ht0 he0. rewrite <- Hdt, <- Hoff. clear Hdt Hoff.
  destruct env as [snd lat dsc scl csb ply cev].
  unfold InitDirectSound, buffer_size.
  cbn [GetOption_sound GetOption_latency DirectSoundCreate SetCooperativeLevel
       CreateSoundBuffer Play CreateEvent statics].
  destruct snd; cbn [negb].
  2:{ intros [= <- <- <-]. cbn. repeat split. exists []. reflexivity. }
  destruct dsc; cbn [negb].
  2:{ intros [= <- <- <-]. cbn. repeat split.
      exists [CallDirectSoundCreate]. reflexivity. }
  destruct scl; cbn [negb].
  2:{ intros [= <- <- <-]. cbn. repeat split.
      exists [CallDirectSoundCreate; CallSetCooperativeLevel]. reflexivity. }
  destruct (FPS =? 0); [discriminate|].
  match goal with |- context [csb ?x] => destruct (csb x) as [mem|] eqn:Hc end.
  - intros [= <- <- <-]. cbn. repeat split.
  - intros [= <- <- <-]. cbn. repeat split.
    eexists [CallDirectSoundCreate; CallSetCooperativeLevel;
             CallCreateSoundBuffer _].
    reflexivity.
Qed.

(** X3. Audio::Init always reports success and starts from a clean slate: no
    timer runs.  It ends in exactly one of two modes.  Without a sound
    buffer it has created the frame event, unsignalled, as its last call.
    With a sound buffer it has made the four DirectSound calls and created
    no event, and [hEvent] is NULL.  [dwTimer] and [dwWriteOffset] keep the
    values they had before. *)
Theorem Init_one_mode FREQ BLOCK FPS env fFirstInit_ s ret s' c :
  Init FREQ BLOCK FPS env fFirstInit_ s = Some (ret, s', c) ->
  ret = true
  /\ hTimer (statics s') = 0
  /\ dwTimer (statics s') = dwTimer (statics s)
  /\ dwWriteOffset (statics s') = dwWriteOffset (statics s)
  /\ match pdsb (statics s') with
     | None =>
       hEvent (statics s') = CreateEvent env
       /\ event_signalled (statics s') = false
       /\ exists c1, c = (Exit true s).2 ++ c1 ++ [CallCreateEvent]
     | Some _ =>
       hEvent (statics s') = 0
       /\ pds s' = true
       /\ GetOption_sound env = true
       /\ c = (Exit true s).2
              ++ [CallDirectSoundCreate; CallSetCooperativeLevel;
                  CallCreateSoundBuffer (u32 (nSampleBufferSize (statics s')));
                  CallPlay]
     end.
Proof. apply Init_spec. Qed.

(** X4. With the sound option off, Init makes no DirectSound call: after the
    tear-down it only creates the frame event. *)
Theorem Init_without_sound FREQ BLOCK FPS env fFirstInit_ s :
  GetOption_sound env = false ->
  exists s',
    Init FREQ BLOCK FPS env fFirstInit_ s
    = Some (true, s', (Exit true s).2 ++ [CallCreateEvent])
    /\ pds s' = false
    /\ pdsb (statics s') = None
    /\ hEvent (statics s') = CreateEvent env
    /\ nSampleBufferSize (statics s') = nSampleBufferSize (statics s).
Proof.
  intros Hoff. unfold Init. rewrite Hoff. cbn [negb].
  pose proof (Exit_spec true s) as H. cbv zeta in H.
  destruct H as (Hpds & Hbuf & _ & _ & _ & _ & Hsz & _).
  destruct (Exit true s) as [[p0 st0] c0]. cbn [fst snd pds statics] in *.
  rewrite Hbuf. eexists. split; [reflexivity|]. cbn. auto.
Qed.

Lemma Init_without_sound_witness :
  exists s',
    Init 44100 4 50 (all_well false 0) true at_start
    = Some (true, s', (Exit true at_start).2 ++ [CallCreateEvent])
    /\ pds s' = false
    /\ pdsb (statics s') = None
    /\ hEvent (statics s') = CreateEvent (all_well false 0)
    /\ nSampleBufferSize (statics s') = nSampleBufferSize (statics at_start).
Proof.
  apply (Init_without_sound 44100 4 50 (all_well false 0) true at_start).
  reflexivity.
Defined.

Lemma Init_one_mode_witness :
  exists s' c,
    Init 44100 4 50 (all_well true 0) true at_start = Some (true, s', c)
    /\ hTimer (statics s') = 0
    /\ hEvent (statics s') = 0
    /\ pds s' = true
    /\ c = [CallDirectSoundCreate; CallSetCooperativeLevel;
            CallCreateSoundBuffer 3532; CallPlay].
Proof.
  pose proof (Init_one_mode 44100 4 50 (all_well true 0) true at_start
                _ _ _ eq_refl) as (_ & Ht & _ & _ & He & Hp & _ & Hc).
  eexists _, _. split; [reflexivity|]. split; [exact Ht|].
  split; [exact He|]. split; [exact Hp|exact Hc].
Defined.

(** X5. The buffer size of lines 221-222 when nothing overflows: a whole number
    of sample blocks, (1 + latency) times the size at latency 0, and per
    unit of latency more samples than one frame lasts. *)
Theorem buffer_size_holds_frames FREQ BLOCK FPS latency :
  0 < FPS -> 0 <= FREQ < 2 ^ 31 - 1 -> 0 < BLOCK -> 0 <= latency ->
  (FREQ / FPS + 1) * BLOCK * (1 + latency) < 2 ^ 31 ->
  let size := (FREQ / FPS + 1) * BLOCK * (1 + latency) in
  buffer_size FREQ BLOCK FPS latency = Some size
  /\ 0 < size
  /\ size mod BLOCK = 0
  /\ FREQ < (FREQ / FPS + 1) * FPS
  /\ (forall size0, buffer_size FREQ BLOCK FPS 0 = Some size0 ->
                    size = (1 + latency) * size0).
Proof.
  intros HFPS HFREQ HBLOCK Hlat Hfit size.
  assert (Hq : 0 <= FREQ / FPS <= FREQ).
  { split; [apply Z.div_pos; lia|].
    apply Z.div_le_upper_bound; nia. }
  assert (Hb : (FREQ / FPS + 1) * BLOCK <= size) by (unfold size; nia).
  assert (H1 : FREQ / FPS + 1 <= (FREQ / FPS + 1) * BLOCK) by nia.
  assert (Hl : 1 + latency <= size) by (unfold size; nia).
  assert (Hsize : buffer_size FREQ BLOCK FPS latency = Some size).
  { unfold buffer_size. destruct (Z.eqb_spec FPS 0) as [E|_]; [lia|].
    rewrite Z.quot_div_nonneg by lia.
    rewrite (s32_small (FREQ / FPS + 1)) by lia.
    rewrite (s32_small ((FREQ / FPS + 1) * BLOCK)) by lia.
    rewrite (s32_small (1 + latency)) by lia.
    rewrite s32_small by (fold size; lia). reflexivity. }
  split; [exact Hsize|]. split; [unfold size; nia|].
  split.
  { unfold size.
    replace ((FREQ / FPS + 1) * BLOCK * (1 + latency))
      with ((FREQ / FPS + 1) * (1 + latency) * BLOCK) by ring.
    apply Z.mod_mul. lia. }
  split.
  { pose proof (Z.div_mod FREQ FPS ltac:(lia)) as Hdm.
    pose proof (Z.mod_pos_bound FREQ FPS HFPS) as Hm. nia. }
  intros size0 H0. unfold buffer_size in H0.
  destruct (Z.eqb_spec FPS 0) as [E|_]; [lia|].
  rewrite Z.quot_div_nonneg in H0 by lia.
  rewrite (s32_small (FREQ / FPS + 1)) in H0 by lia.
  rewrite (s32_small ((FREQ / FPS + 1) * BLOCK)) in H0 by lia.
  change (s32 (1 + 0)) with 1 in H0.
  rewrite s32_small in H0 by lia.
  injection H0 as <-. unfold size. ring.
Qed.

Lemma buffer_size_holds_frames_witness :
  buffer_size 44100 4 50 4 = Some ((44100 / 50 + 1) * 4 * (1 + 4))
  /\ ((44100 / 50 + 1) * 4 * (1 + 4)) mod 4 = 0
  /\ 44100 < (44100 / 50 + 1) * 50.
Proof.
  pose proof (buffer_size_holds_frames 44100 4 50 4 ltac:(lia) ltac:(lia)
                ltac:(lia) ltac:(lia) ltac:(reflexivity))
    as (H1 & _ & H2 & H3 & _).
  exact (conj H1 (conj H2 H3)).
Defined.

(** X6. When every creation call succeeds, the buffer has the size asked for
    and the old write offset lies inside it, Init leaves a live buffer
    whether or not [Play] succeeded. *)
Theorem Init_makes_live FREQ BLOCK FPS env fFirstInit_ s size mem :
  GetOption_sound env = true ->
  DirectSoundCreate env = true ->
  SetCooperativeLevel env = true ->
  buffer_size FREQ BLOCK FPS (GetOption_latency env) = Some size ->
  0 < size < 2 ^ 31 ->
  CreateSoundBuffer env (u32 size) = Some mem ->
  Z.of_nat (length mem) = size ->
  0 <= dwWriteOffset (statics s) < size ->
  exists s' c,
    Init FREQ BLOCK FPS env fFirstInit_ s = Some (true, s', c)
    /\ live mem (statics s')
    /\ nSampleBufferSize (statics s') = size.
Proof.
  intros Hsnd Hdsc Hscl Hsize Hrange Hcsb Hlen Hoff. unfold Init.
  pose proof (Exit_spec true s) as H. cbv zeta in H.
  destruct H as (_ & _ & _ & _ & _ & Hoff' & _).
  destruct (Exit true s) as [[p0 st0] c0]. cbn [fst snd pds statics] in *.
  unfold InitDirectSound. rewrite Hsnd, Hdsc, Hscl, Hsize, Hcsb.
  cbn [negb statics pdsb set_memory].
  eexists _, _. split; [reflexivity|]. split; [|reflexivity].
  split; cbn; [reflexivity|lia|lia|lia].
Qed.

Lemma Init_makes_live_witness :
  exists s' c,
    Init 44100 4 50 (all_well true 0) true at_start = Some (true, s', c)
    /\ live (replicate 3532 x00) (statics s')
    /\ nSampleBufferSize (statics s') = 3532.
Proof.
  apply (Init_makes_live 44100 4 50 (all_well true 0) true at_start 3532
           (replicate 3532 x00));
    try reflexivity; cbn; lia.
Defined.

(** X7. When [Play] fails, InitDirectSound reports failure but the buffer it
    created stays in [pdsb]: Init creates no frame event, and AddData takes
    the buffer path, so it never waits for the timer and never returns
    false. *)
Theorem Init_play_failure FREQ BLOCK FPS env fFirstInit_ s size mem :
  GetOption_sound env = true ->
  DirectSoundCreate env = true ->
  SetCooperativeLevel env = true ->
  buffer_size FREQ BLOCK FPS (GetOption_latency env) = Some size ->
  CreateSoundBuffer env (u32 size) = Some mem ->
  Play env = false ->
  (exists s1 c1,
     InitDirectSound FREQ BLOCK FPS env (Exit true s).1 = Some (false, s1, c1)
     /\ pdsb (statics s1) = Some mem)
  /\ exists s' c,
       Init FREQ BLOCK FPS env fFirstInit_ s = Some (true, s', c)
       /\ pdsb (statics s') = Some mem
       /\ hEvent (statics s') = 0
       /\ ~ In CallCreateEvent c
       /\ forall fps host data n st,
            AddData fps host (statics s') data n <> Returned false st
            /\ AddData fps host (statics s') data n <> Blocked st.
Proof.
  intros Hsnd Hdsc Hscl Hsize Hcsb Hplay.
  pose proof (Exit_spec true s) as H. cbv zeta in H.
  destruct H as (_ & _ & _ & He & _ & _ & _ & Hc0).
  unfold Init. destruct (Exit true s) as [[p0 st0] c0].
  cbn [fst snd pds statics] in *.
  unfold InitDirectSound. rewrite Hsnd, Hdsc, Hscl, Hsize, Hcsb, Hplay.
  cbn [negb statics pdsb set_memory]. split.
  { eexists _, _. split; reflexivity. }
  eexists _, _. split; [reflexivity|]. split; [reflexivity|].
  split; [exact He|]. split.
  { rewrite Hc0, !in_app_iff. cbn.
    destruct (pdsb (statics s)), (pds s), (hTimer (statics s) =? 0),
      (hEvent (statics s) =? 0); cbn; intuition discriminate. }
  intros fps host data n st. unfold AddData. cbn [pdsb].
  destruct (AddData_loop _ _ _ _); split; discriminate.
Qed.

Lemma Init_play_failure_witness :
  exists s' c,
    Init 44100 4 50 play_fails true at_start = Some (true, s', c)
    /\ pdsb (statics s') = Some (replicate 3532 x00)
    /\ hEvent (statics s') = 0
    /\ ~ In CallCreateEvent c
    /\ forall fps host data n st,
         AddData fps host (statics s') data n <> Returned false st
         /\ AddData fps host (statics s') data n <> Blocked st.
Proof.
  apply (proj2 (Init_play_failure 44100 4 50 play_fails true at_start 3532
                  (replicate 3532 x00) eq_refl eq_refl eq_refl eq_refl
                  eq_refl eq_refl)).
Defined.

(** X8. Exit and Init leave [dwTimer] as it was.  So when Init ends without a
    sound buffer and the speed still gives the interval stored before, the
    next AddData starts no timer, although Exit has stopped the old one: it
    only waits on the new event, which nothing will signal. *)
Theorem reinit_keeps_dwTimer FREQ BLOCK FPS env fFirstInit_ s ret s' c
    host data n :
  Init FREQ BLOCK FPS env fFirstInit_ s = Some (ret, s', c) ->
  pdsb (statics s') = None ->
  CreateEvent env <> 0 ->
  frame_time FPS (GetOption_speed host) = Some (dwTimer (statics s)) ->
  hTimer (statics s') = 0
  /\ AddData FPS host (statics s') data n
     = Blocked (call (EvWaitForSingleObject (CreateEvent env) INFINITE)
                     (statics s')).
Proof.
  intros Hinit Hbuf Hev Hft.
  pose proof (Init_spec _ _ _ _ _ _ _ _ _ Hinit) as (_ & Ht & Hdt & _ & Hmode).
  rewrite Hbuf in Hmode. destruct Hmode as (He & Hsig & _).
  split; [exact Ht|].
  unfold AddData, AddData_timer. rewrite Hbuf, Hft, <- Hdt, Z.eqb_refl.
  unfold wait_for_event. cbn [call hEvent event_signalled hTimer].
  rewrite He, Hsig, Ht.
  destruct (Z.eqb_spec (CreateEvent env) 0) as [E|_]; [contradiction|].
  reflexivity.
Qed.

Lemma reinit_keeps_dwTimer_witness :
  exists s' c,
    Init 44100 4 50 (all_well false 0) false paced = Some (true, s', c)
    /\ c = [CallOther (EvTimeKillEvent 5); CallCloseHandle 7; CallCreateEvent]
    /\ hTimer (statics s') = 0
    /\ AddData 50 (MkHost 100 9 []) (statics s') four_bytes 4
       = Blocked (call (EvWaitForSingleObject 7 INFINITE) (statics s')).
Proof.
  eexists _, _. split; [reflexivity|]. split; [reflexivity|].
  apply (reinit_keeps_dwTimer 44100 4 50 (all_well false 0) false paced
           true _ _ (MkHost 100 9 []) four_bytes 4 eq_refl eq_refl).
  - discriminate.
  - reflexivity.
Defined.

(** ** More on the frame timer *)

(** X9. Whenever line 115 does not divide by zero, the interval is a [DWORD]
    of at least 1: [timeSetEvent] is never asked for a period of 0. *)
Theorem frame_time_never_zero fps speed dwTime :
  frame_time fps speed = Some dwTime -> 1 <= dwTime < 2 ^ 32.
Proof.
  unfold frame_time. destruct (_ =? 0); [discriminate|].
  intros [= <-].
  match goal with |- context [u32 ?x] =>
    pose proof (Z.mod_pos_bound x (2 ^ 32) ltac:(lia)) as Hr;
    fold (u32 x) in Hr; destruct (Z.eqb_spec (u32 x) 0) end; lia.
Qed.

Lemma frame_time_never_zero_witness :
  frame_time 50 4000 = Some 1 /\ 1 <= 1 < 2 ^ 32.
Proof.
  split; [reflexivity|].
  apply (frame_time_never_zero 50 4000 1). reflexivity.
Defined.

(** X10. In timer mode with a live event: when the interval has changed and
    [timeSetEvent] succeeds, the call stops the old timer if one runs,
    starts the new one, waits and returns false; when the interval is the
    stored one and the timer runs, the wait is the only call.  Either way
    the state it leaves is again one with a running timer at the computed
    interval, so every later call at that speed only waits. *)
Theorem timer_paces fps host st data n dwTime :
  pdsb st = None ->
  hEvent st <> 0 ->
  frame_time fps (GetOption_speed host) = Some dwTime ->
  (dwTime <> dwTimer st -> timeSetEvent host <> 0 ->
   exists st',
     AddData fps host st data n = Returned false st'
     /\ calls st'
        = calls st
          ++ (if hTimer st =? 0 then [] else [EvTimeKillEvent (hTimer st)])
          ++ [EvTimeSetEvent dwTime;
              EvWaitForSingleObject (hEvent st) INFINITE]
     /\ hTimer st' = timeSetEvent host /\ dwTimer st' = dwTime
     /\ pdsb st' = None /\ hEvent st' = hEvent st
     /\ event_signalled st' = false)
  /\ (dwTime = dwTimer st -> hTimer st <> 0 ->
      exists st',
        AddData fps host st data n = Returned false st'
        /\ calls st' = calls st ++ [EvWaitForSingleObject (hEvent st) INFINITE]
        /\ hTimer st' = hTimer st /\ dwTimer st' = dwTime
        /\ pdsb st' = None /\ hEvent st' = hEvent st
        /\ event_signalled st' = false).
Proof.
  intros Hp He Hft. unfold AddData, AddData_timer. rewrite Hp, Hft. split.
  - intros Hne Hset.
    destruct (Z.eqb_spec dwTime (dwTimer st)) as [E|_]; [contradiction|].
    destruct st as [b sz off he ht dt sig cs].
    cbn [hTimer hEvent dwTimer calls pdsb] in *. subst b.
    destruct (Z.eqb_spec ht 0) as [Et|Et];
      cbn [call set_timer hTimer hEvent dwTimer calls pdsb event_signalled
           nSampleBufferSize dwWriteOffset];
      destruct (Z.eqb_spec (timeSetEvent host) 0) as [E0|_];
        try contradiction;
      unfold wait_for_event;
      cbn [call set_timer hTimer hEvent dwTimer calls pdsb event_signalled
           nSampleBufferSize dwWriteOffset];
      destruct (Z.eqb_spec he 0) as [E1|_]; try contradiction;
      destruct (Z.eqb_spec (timeSetEvent host) 0) as [E2|_];
        try contradiction;
      destruct sig; eexists; (split; [reflexivity|]); cbn;
        rewrite <- ?app_assoc; repeat split; reflexivity.
  - intros -> Hrun. rewrite Z.eqb_refl.
    destruct st as [b sz off he ht dt sig cs].
    cbn [hTimer hEvent dwTimer calls pdsb] in *. subst b.
    unfold wait_for_event.
    cbn [call hTimer hEvent dwTimer calls pdsb event_signalled].
    destruct (Z.eqb_spec he 0) as [E1|_]; try contradiction.
    destruct (Z.eqb_spec ht 0) as [E2|_]; try contradiction.
    destruct sig; eexists; (split; [reflexivity|]); cbn; repeat split;
      reflexivity.
Qed.

Lemma timer_paces_witness :
  exists st',
    AddData 50 (MkHost 200 9 []) (statics paced) four_bytes 4
    = Returned false st'
    /\ calls st'
       = [EvTimeKillEvent 5; EvTimeSetEvent 10;
          EvWaitForSingleObject 7 INFINITE]
    /\ hTimer st' = 9 /\ dwTimer st' = 10
    /\ pdsb st' = None /\ hEvent st' = 7
    /\ event_signalled st' = false.
Proof.
  apply (proj1 (timer_paces 50 (MkHost 200 9 []) (statics paced) four_bytes 4
                  10 eq_refl ltac:(discriminate) eq_refl));
    discriminate.
Defined.

(** ** The buffer path with any device *)

Lemma memcpy_length mem dst src n mem' :
  memcpy mem dst src n = Some mem' -> length mem' = length mem.
Proof.
  unfold memcpy. destruct (_ && _); [|discriminate].
  intros [= <-]. apply length_inserts.
Qed.

Lemma write_spans_shape sp mem st data n st' data' n' :
  write_spans sp mem st data n = Some (st', data', n') ->
  exists l1 l2 mem',
    st' = set_dwWriteOffset
            (u32 (dwWriteOffset st + l1 + l2) mod u32 (nSampleBufferSize st))
            (call (EvUnlock (pvWrite1 sp) l1 (pvWrite2 sp) l2)
               (set_memory mem' st))
    /\ l1 <= dwLength1 sp /\ l2 <= dwLength2 sp
    /\ length mem' = length mem.
Proof.
  unfold write_spans. intros H.
  set (l1 := Z.min (dwLength1 sp) (u32 n)) in *.
  assert (Hl1 : l1 <= dwLength1 sp) by apply Z.le_min_l.
  assert (Hfirst : exists mem1 d1 n1,
     (if l1 =? 0 then Some (mem, data, n)
      else match memcpy mem (pvWrite1 sp) data l1 with
           | Some mem' => Some (mem', drop (Z.to_nat l1) data, s32 (n - l1))
           | None => None
           end) = Some (mem1, d1, n1) /\ length mem1 = length mem).
  { destruct (l1 =? 0); [eauto|].
    destruct (memcpy mem (pvWrite1 sp) data l1) as [m|] eqn:Hc;
      [|discriminate].
    apply memcpy_length in Hc. eauto. }
  destruct Hfirst as (mem1 & d1 & n1 & Hf & Hlen1).
  rewrite Hf in H. cbv beta iota zeta in H.
  set (l2 := Z.min (dwLength2 sp) (u32 n1)) in *.
  assert (Hl2 : l2 <= dwLength2 sp) by apply Z.le_min_l.
  assert (Hsecond : exists mem2 d2 n2,
     (if l2 =? 0 then Some (mem1, d1, n1)
      else match memcpy mem1 (pvWrite2 sp) d1 l2 with
           | Some mem' => Some (mem', drop (Z.to_nat l2) d1, s32 (n1 - l2))
           | None => None
           end) = Some (mem2, d2, n2) /\ length mem2 = length mem).
  { destruct (l2 =? 0); [eauto|].
    destruct (memcpy mem1 (pvWrite2 sp) d1 l2) as [m|] eqn:Hc;
      [|discriminate].
    apply memcpy_length in Hc. rewrite Hlen1 in Hc. eauto. }
  destruct Hsecond as (mem2 & d2 & n2 & Hs & Hlen2).
  rewrite Hs in H. cbv beta iota zeta in H.
  cbn [call set_memory nSampleBufferSize dwWriteOffset] in H.
  destruct (_ =? 0); [discriminate|]. injection H as <- _ _.
  exists l1, l2, mem2. auto.
Qed.

Lemma pass_shape dev st data n flow st' data' n' :
  AddData_pass dev st data n = Some (flow, st', data', n') ->
  exists mem mem' middle,
    pdsb st = Some mem /\ pdsb st' = Some mem'
    /\ length mem' = length mem
    /\ nSampleBufferSize st' = nSampleBufferSize st
    /\ hEvent st' = hEvent st /\ hTimer st' = hTimer st
    /\ dwTimer st' = dwTimer st
    /\ event_signalled st' = event_signalled st
    /\ calls st'
       = calls st ++ [EvGetCurrentPosition] ++ middle
         ++ match flow with Continue => [EvSleep 2] | Break => [] end
    /\ (middle = []
        \/ (exists k,
              middle = [EvLock (dwWriteOffset st) k 0]
              /\ Lock dev (dwWriteOffset st) k 0 = None)
        \/ (exists k sp l1 l2,
              middle = [EvLock (dwWriteOffset st) k 0;
                        EvUnlock (pvWrite1 sp) l1 (pvWrite2 sp) l2]
              /\ Lock dev (dwWriteOffset st) k 0 = Some sp
              /\ l1 <= dwLength1 sp /\ l2 <= dwLength2 sp)).
Proof.
  unfold AddData_pass. intros H.
  destruct (pdsb st) as [mem|] eqn:Hp; [|discriminate].
  destruct (GetCurrentPosition dev) as [[play write]|].
  2:{ injection H as <- <- _ _. exists mem, mem, [].
      cbn. rewrite Hp. auto 12. }
  cbn [call nSampleBufferSize dwWriteOffset] in H.
  destruct (_ =? 0); [discriminate|].
  match type of H with
  | context [if ?b then _ else _] => destruct b
  end.
  - destruct (n =? 0); injection H as <- <- _ _; exists mem, mem, [];
      cbn; rewrite Hp, <- ?app_assoc; auto 12.
  - match type of H with
    | context [Lock dev ?o ?k 0] => destruct (Lock dev o k 0) as [sp|] eqn:Hl
    end.
    + destruct (write_spans _ _ _ _ _) as [[[st1 d1] n1]|] eqn:Hw;
        [|discriminate].
      apply write_spans_shape in Hw.
      destruct Hw as (l1 & l2 & mem' & -> & Hl1 & Hl2 & Hlen).
      destruct (n1 =? 0); injection H as <- <- _ _;
        eexists mem, mem', [_; _];
        cbn; rewrite <- ?app_assoc;
        (repeat (split; [first [exact Hp|exact Hlen|reflexivity]|]));
        right; right; eexists _, sp, l1, l2; auto.
    + destruct (n =? 0); injection H as <- <- _ _;
        eexists mem, mem, [_];
        cbn; rewrite <- ?app_assoc;
        (repeat (split; [first [exact Hp|reflexivity]|]));
        right; left; eexists; auto.
Qed.

(** X11. Whatever the device answers, a pass queries the cursors first, unlocks
    exactly when its lock succeeded, with the pointers the lock returned and
    lengths no larger than the locked ones, and calls [Sleep(2)] last
    exactly when the loop goes on. *)
Theorem pass_unlocks_what_it_locked dev st data n flow st' data' n' :
  AddData_pass dev st data n = Some (flow, st', data', n') ->
  exists middle,
    calls st'
    = calls st ++ [EvGetCurrentPosition] ++ middle
      ++ match flow with Continue => [EvSleep 2] | Break => [] end
    /\ (middle = []
        \/ (exists k,
              middle = [EvLock (dwWriteOffset st) k 0]
              /\ Lock dev (dwWriteOffset st) k 0 = None)
        \/ (exists k sp l1 l2,
              middle = [EvLock (dwWriteOffset st) k 0;
                        EvUnlock (pvWrite1 sp) l1 (pvWrite2 sp) l2]
              /\ Lock dev (dwWriteOffset st) k 0 = Some sp
              /\ l1 <= dwLength1 sp /\ l2 <= dwLength2 sp)).
Proof.
  intros H. destruct (pass_shape _ _ _ _ _ _ _ _ H)
    as (mem & mem' & middle & _ & _ & _ & _ & _ & _ & _ & _ & Hc & Hm).
  exists middle. split; assumption.
Qed.

Lemma pass_unlocks_what_it_locked_witness :
  exists middle,
    calls (set_dwWriteOffset 2
             (call (EvUnlock 6 2 0 2)
                (set_memory [x63; x64; x00; x00; x00; x00; x61; x62]
                   (call (EvLock 6 4 0) (call EvGetCurrentPosition ring8)))))
    = calls ring8 ++ [EvGetCurrentPosition] ++ middle ++ []
    /\ (middle = []
        \/ (exists k,
              middle = [EvLock 6 k 0]
              /\ Lock (healthy 8 2) 6 k 0 = None)
        \/ (exists k sp l1 l2,
              middle = [EvLock 6 k 0;
                        EvUnlock (pvWrite1 sp) l1 (pvWrite2 sp) l2]
              /\ Lock (healthy 8 2) 6 k 0 = Some sp
              /\ l1 <= dwLength1 sp /\ l2 <= dwLength2 sp)).
Proof.
  apply (pass_unlocks_what_it_locked (healthy 8 2) ring8 four_bytes 4 Break
           _ [] 0).
  reflexivity.
Defined.

Lemma loop_frame devs : forall st mem data n st' data' n',
  pdsb st = Some mem ->
  AddData_loop devs st data n = LeftLoop st' data' n'
  \/ AddData_loop devs st data n = StillPolling st' data' n' ->
  nSampleBufferSize st' = nSampleBufferSize st
  /\ hEvent st' = hEvent st /\ hTimer st' = hTimer st
  /\ dwTimer st' = dwTimer st
  /\ event_signalled st' = event_signalled st
  /\ (exists mem', pdsb st' = Some mem' /\ length mem' = length mem)
  /\ exists more, calls st' = calls st ++ more /\ Forall buffer_call more.
Proof.
  induction devs as [|dev devs IH]; intros st mem data n st' data' n' Hp H;
    cbn [AddData_loop] in H.
  - assert (st' = st) as ->.
    { destruct (n <=? 0); destruct H as [H|H]; congruence. }
    repeat split; eauto. exists []. rewrite app_nil_r. auto.
  - destruct (n <=? 0).
    { assert (st' = st) as -> by (destruct H as [H|H]; congruence).
      repeat split; eauto. exists []. rewrite app_nil_r. auto. }
    destruct (AddData_pass dev st data n) as [[[[flow st1] d1] n1]|] eqn:Hpass;
      [|destruct H; discriminate].
    destruct (pass_shape _ _ _ _ _ _ _ _ Hpass)
      as (mem0 & mem1 & middle & Hp0 & Hp1 & Hlen & Hsz & He & Ht & Hd & Hs
          & Hc & Hm).
    assert (Hmid : Forall buffer_call
                     ([EvGetCurrentPosition] ++ middle
                      ++ match flow with
                         | Continue => [EvSleep 2]
                         | Break => []
                         end)).
    { apply Forall_app. split; [repeat constructor|].
      apply Forall_app. split.
      - destruct Hm as [->|[(k & -> & _)|(k & sp & l1 & l2 & -> & _)]];
          repeat constructor.
      - destruct flow; repeat constructor. }
    rewrite Hp in Hp0. injection Hp0 as <-.
    destruct flow.
    + assert (st' = st1) as -> by (destruct H as [H|H]; congruence).
      repeat split; eauto.
    + destruct (IH st1 mem1 d1 n1 st' data' n' Hp1 H)
        as (Hsz' & He' & Ht' & Hd' & Hs' & (mem' & Hp' & Hlen') & more & Hc'
            & Hmore).
      repeat split; try congruence.
      * exists mem'. split; [exact Hp'|congruence].
      * eexists. split.
        -- rewrite Hc', Hc, <- app_assoc. reflexivity.
        -- apply Forall_app. split; assumption.
Qed.

(** X12. Whatever the device answers, the buffer path leaves the buffer size,
    the timer, its interval and the event alone, keeps a sample memory of
    the same size in [pdsb], and calls nothing but the cursor query, Lock,
    Unlock and Sleep. *)
Theorem AddData_buffer_path_frame fps host st mem data n st' :
  pdsb st = Some mem ->
  (exists ret, AddData fps host st data n = Returned ret st')
  \/ (exists data' n', AddData fps host st data n = Polling st' data' n') ->
  nSampleBufferSize st' = nSampleBufferSize st
  /\ hEvent st' = hEvent st /\ hTimer st' = hTimer st
  /\ dwTimer st' = dwTimer st
  /\ event_signalled st' = event_signalled st
  /\ (exists mem', pdsb st' = Some mem' /\ length mem' = length mem)
  /\ exists more, calls st' = calls st ++ more /\ Forall buffer_call more.
Proof.
  intros Hp H. unfold AddData in H. rewrite Hp in H.
  destruct (AddData_loop (answers host) st data n) as [s1 d1 n1|s1 d1 n1|]
    eqn:Hloop.
  - destruct H as [[ret [= _ <-]]|[d' [n' H]]]; [|discriminate].
    apply (loop_frame _ _ _ _ _ _ _ _ Hp (or_introl Hloop)).
  - destruct H as [[ret H]|[d' [n' [= <- _ _]]]]; [discriminate|].
    apply (loop_frame _ _ _ _ _ _ _ _ Hp (or_intror Hloop)).
  - destruct H as [[ret H]|[d' [n' H]]]; discriminate.
Qed.

Lemma AddData_buffer_path_frame_witness :
  exists st',
    AddData 50 (MkHost 100 0 [healthy 8 7; lost]) ring8 four_bytes 4
    = Returned true st'
    /\ nSampleBufferSize st' = nSampleBufferSize ring8
    /\ hTimer st' = hTimer ring8
    /\ exists more, calls st' = calls ring8 ++ more /\ Forall buffer_call more.
Proof.
  eexists. split; [reflexivity|].
  pose proof (AddData_buffer_path_frame 50 (MkHost 100 0 [healthy 8 7; lost])
                ring8 (replicate 8 x00) four_bytes 4 _ eq_refl
                (or_introl (ex_intro _ true eq_refl)))
    as (H1 & _ & H2 & _ & _ & _ & H3).
  exact (conj H1 (conj H2 H3)).
Defined.

(** ** Locks that fail *)

(** X13. While the device answers the cursor query but refuses every lock, a
    call with something to write never leaves the loop: after any number of
    passes the whole input is still pending and the sample memory and the
    write offset are as they were. *)
Theorem refused_locks_spin devs : forall st mem data n,
  pdsb st = Some mem ->
  u32 (nSampleBufferSize st) <> 0 ->
  0 < n ->
  Forall (fun dev => GetCurrentPosition dev <> None
                     /\ forall off k fl, Lock dev off k fl = None) devs ->
  exists st',
    AddData_loop devs st data n = StillPolling st' data n
    /\ pdsb st' = Some mem
    /\ dwWriteOffset st' = dwWriteOffset st
    /\ nSampleBufferSize st' = nSampleBufferSize st.
Proof.
  induction devs as [|dev devs IH]; intros st mem data n Hp HB Hn Hdevs;
    cbn [AddData_loop]; destruct (Z.leb_spec n 0) as [Hle|_]; try lia.
  - exists st. auto.
  - inversion Hdevs as [|? ? [Hpos Hlock] Hrest]; subst.
    unfold AddData_pass. rewrite Hp.
    destruct (GetCurrentPosition dev) as [[play write]|]; [|contradiction].
    cbn [call nSampleBufferSize dwWriteOffset].
    destruct (Z.eqb_spec (u32 (nSampleBufferSize st)) 0) as [E|_];
      [contradiction|].
    rewrite Hlock.
    match goal with
    | |- context [if Z.min ?a n =? 0 then _ else _] =>
      destruct (Z.min a n =? 0)
    end;
      cbv beta iota; destruct (Z.eqb_spec n 0) as [E|_]; try lia;
      match goal with
      | |- context [AddData_loop devs ?s data n] =>
        destruct (IH s mem data n) as (st' & Hl & Hm & Ho & Hs); auto
      end; exists st'; auto.
Qed.

Lemma refused_locks_spin_witness :
  exists st',
    AddData_loop [unlockable 7; unlockable 0; unlockable 3] ring8 four_bytes 4
    = StillPolling st' four_bytes 4
    /\ pdsb st' = Some (replicate 8 x00)
    /\ dwWriteOffset st' = dwWriteOffset ring8
    /\ nSampleBufferSize st' = nSampleBufferSize ring8.
Proof.
  apply (refused_locks_spin [unlockable 7; unlockable 0; unlockable 3] ring8
           (replicate 8 x00) four_bytes 4 eq_refl).
  - discriminate.
  - lia.
  - repeat apply Forall_cons_2; try apply Forall_nil_2;
      (split; [discriminate|reflexivity]).
Defined.

(** ** Silence and the write offset *)

(** A pass that finds the play cursor at the write offset finds no space:
    it locks nothing, sleeps and goes on. *)
Lemma pass_no_space dev st mem data n write :
  pdsb st = Some mem ->
  u32 (nSampleBufferSize st) <> 0 ->
  GetCurrentPosition dev = Some (dwWriteOffset st, write) ->
  0 < n ->
  AddData_pass dev st data n
  = Some (Continue, call (EvSleep 2) (call EvGetCurrentPosition st), data, n).
Proof.
  intros Hp HB Hpos Hn. unfold AddData_pass. rewrite Hp, Hpos.
  cbn [call nSampleBufferSize dwWriteOffset].
  destruct (Z.eqb_spec (u32 (nSampleBufferSize st)) 0) as [E|_];
    [contradiction|].
  rewrite Z.add_simpl_r, Z_mod_same_full.
  change (s32 0) with 0. rewrite Z.min_l by lia. cbn [Z.eqb].
  destruct (Z.eqb_spec n 0) as [E|_]; [lia|]. reflexivity.
Qed.

Lemma Silence_shape dev garbage st mem st1 :
  pdsb st = Some mem ->
  Silence dev garbage st = Some st1 ->
  nSampleBufferSize st1 = nSampleBufferSize st
  /\ (exists mem1, pdsb st1 = Some mem1 /\ length mem1 = length mem
                   /\ (mem1 = mem \/ Lock dev 0 0 DSBLOCK_ENTIREBUFFER <> None))
  /\ dwWriteOffset st1
     = match GetCurrentPosition dev with
       | Some (play, _) => play
       | None => garbage
       end.
Proof.
  intros Hp. unfold Silence. rewrite Hp.
  destruct (Lock dev 0 0 DSBLOCK_ENTIREBUFFER) as [sp|].
  - unfold memset. destruct (in_bounds _ _ _); [|discriminate].
    intros [= <-]. cbn. split; [reflexivity|]. split; [|reflexivity].
    eexists. split; [reflexivity|]. rewrite length_inserts.
    split; [reflexivity|]. right. discriminate.
  - intros [= <-]. cbn. split; [reflexivity|]. split; [|reflexivity].
    exists mem. auto.
Qed.

(** X14. After Silence the write offset is the play cursor, and AddData takes
    equal cursors for a full buffer: as long as the play cursor stays where
    Silence found it, a call with something to write locks nothing, writes
    nothing and stays in the loop. *)
Theorem Silence_then_no_space dev garbage st mem st1 play write devs :
  pdsb st = Some mem ->
  u32 (nSampleBufferSize st) <> 0 ->
  GetCurrentPosition dev = Some (play, write) ->
  Silence dev garbage st = Some st1 ->
  Forall (fun dev' => exists write',
            GetCurrentPosition dev' = Some (play, write')) devs ->
  forall data n,
    0 < n ->
    exists st',
      AddData_loop devs st1 data n = StillPolling st' data n
      /\ pdsb st' = pdsb st1
      /\ dwWriteOffset st' = play
      /\ exists more,
           calls st' = calls st1 ++ more
           /\ Forall (fun e => e = EvGetCurrentPosition \/ e = EvSleep 2) more.
Proof.
  intros Hp HB Hpos Hsil Hdevs data n Hn.
  destruct (Silence_shape _ _ _ _ _ Hp Hsil) as (Hsz & (mem1 & Hp1 & _) & Hoff).
  rewrite Hpos in Hoff. rewrite <- Hsz in HB. clear Hsil Hp Hsz Hpos.
  revert st1 Hp1 HB Hoff.
  induction devs as [|dev' devs IH]; intros st1 Hp1 HB Hoff;
    cbn [AddData_loop]; destruct (Z.leb_spec n 0) as [Hle|_]; try lia.
  - exists st1. split; [reflexivity|]. split; [reflexivity|].
    split; [exact Hoff|]. exists []. rewrite app_nil_r. auto.
  - apply Forall_cons in Hdevs as [[write' Hpos'] Hrest].
    rewrite <- Hoff in Hpos'.
    rewrite (pass_no_space dev' st1 mem1 data n write') by assumption.
    destruct (IH Hrest (call (EvSleep 2) (call EvGetCurrentPosition st1))
                 Hp1 HB Hoff)
      as (st' & Hl & Hm & Ho & more & Hc & Hmore).
    exists st'. split; [exact Hl|]. split; [exact Hm|]. split; [exact Ho|].
    exists ([EvGetCurrentPosition; EvSleep 2] ++ more). split.
    + rewrite Hc. cbn. rewrite <- !app_assoc. reflexivity.
    + apply Forall_app. split; [|exact Hmore].
      apply Forall_cons_2; [left; reflexivity|].
      apply Forall_cons_2; [right; reflexivity|]. apply Forall_nil_2.
Qed.

Lemma Silence_then_no_space_witness :
  exists st',
    AddData_loop [healthy 4 3; healthy 4 3]
      (set_dwWriteOffset 3
         (call EvGetCurrentPosition
            (call (EvUnlock 0 4 0 0)
               (set_memory (replicate 4 x00)
                  (call (EvLock 0 0 DSBLOCK_ENTIREBUFFER) playing)))))
      four_bytes 4
    = StillPolling st' four_bytes 4
    /\ pdsb st' = Some (replicate 4 x00)
    /\ dwWriteOffset st' = 3.
Proof.
  destruct (Silence_then_no_space (healthy 4 3) 0 playing four_bytes _ 3 3
              [healthy 4 3; healthy 4 3] eq_refl ltac:(discriminate) eq_refl
              eq_refl
              ltac:(repeat apply Forall_cons_2; try apply Forall_nil_2;
                    exists 3; reflexivity)
              four_bytes 4 ltac:(lia))
    as (st' & H1 & H2 & H3 & _).
  exists st'. split; [exact H1|]. split; [exact H2|exact H3].
Defined.

(** X15. Silence puts the write offset back inside the buffer wherever it was:
    with a play cursor inside the buffer and a lock that keeps the contract
    (or fails), the statics it leaves describe a live buffer. *)
Theorem Silence_makes_live dev garbage st mem play write :
  pdsb st = Some mem ->
  0 < nSampleBufferSize st < 2 ^ 31 ->
  Z.of_nat (length mem) = nSampleBufferSize st ->
  GetCurrentPosition dev = Some (play, write) ->
  0 <= play < nSampleBufferSize st ->
  (forall sp, Lock dev 0 0 DSBLOCK_ENTIREBUFFER = Some sp ->
              sp = ds_lock (nSampleBufferSize st) 0 0 DSBLOCK_ENTIREBUFFER) ->
  exists st' mem',
    Silence dev garbage st = Some st'
    /\ live mem' st'
    /\ dwWriteOffset st' = play.
Proof.
  intros Hp HB Hlen Hpos Hplay Hlock. unfold Silence. rewrite Hp, Hpos.
  destruct (Lock dev 0 0 DSBLOCK_ENTIREBUFFER) as [sp|] eqn:Hl.
  - rewrite (Hlock sp eq_refl).
    assert (Hsp : ds_lock (nSampleBufferSize st) 0 0 DSBLOCK_ENTIREBUFFER
                  = MkSpans 0 (nSampleBufferSize st) 0 0).
    { unfold ds_lock, DSBLOCK_ENTIREBUFFER.
      change (Z.testbit 2 1) with true. cbv beta iota zeta.
      rewrite Z.sub_0_r, Z.min_id, Z.sub_diag. reflexivity. }
    rewrite Hsp. cbn [pvWrite1 dwLength1].
    rewrite memset_in_bounds by lia.
    eexists _, _. split; [reflexivity|]. split; [|reflexivity].
    split; cbn; [reflexivity|lia|rewrite length_inserts; lia|lia].
  - eexists _, _. split; [reflexivity|]. split; [|reflexivity].
    split; cbn; [exact Hp|lia|lia|lia].
Qed.

Lemma Silence_makes_live_witness :
  exists st' mem',
    Silence (healthy 4 3) 0 (set_dwWriteOffset 900 playing) = Some st'
    /\ live mem' st'
    /\ dwWriteOffset st' = 3.
Proof.
  apply (Silence_makes_live (healthy 4 3) 0 (set_dwWriteOffset 900 playing)
           four_bytes 3 3 eq_refl);
    try reflexivity; cbn; try lia.
  intros sp [= <-]. reflexivity.
Defined.

(** ** Stream order *)

Lemma ring_write_laps src mem off q :
  ring_write mem (off + q * length mem) src = ring_write mem off src.
Proof.
  induction q as [|q IH]; [rewrite Nat.add_0_r; reflexivity|].
  replace (off + S q * length mem)%nat
    with ((off + q * length mem) + length mem)%nat by lia.
  rewrite ring_write_lap. exact IH.
Qed.

Lemma ring_write_mod src mem off :
  ring_write mem (off mod length mem) src = ring_write mem off src.
Proof.
  rewrite (Nat.div_mod_eq off (length mem)) at 2.
  rewrite <- (ring_write_laps src mem (off mod length mem)
                (off / length mem)).
  f_equal. lia.
Qed.

(** A pass on a live buffer that keeps the contract writes the next [k]
    bytes of the input around the ring from the write offset. *)
Lemma pass_in_order mem st dev data n :
  live mem st ->
  honours_contract (nSampleBufferSize st) dev ->
  0 < n < 2 ^ 31 ->
  n <= Z.of_nat (length data) ->
  exists flow st' k,
    AddData_pass dev st data n
    = Some (flow, st', drop (Z.to_nat k) data, n - k)
    /\ live (ring_write mem (Z.to_nat (dwWriteOffset st))
               (take (Z.to_nat k) data)) st'
    /\ nSampleBufferSize st' = nSampleBufferSize st
    /\ 0 <= k <= n
    /\ dwWriteOffset st'
       = (dwWriteOffset st + k) mod nSampleBufferSize st
    /\ (flow = Continue -> k < n)
    /\ (flow = Break -> k = n \/ GetCurrentPosition dev = None)
    /\ (forall play write,
          GetCurrentPosition dev = Some (play, write) ->
          Lock dev (dwWriteOffset st) (Z.min (space st play) n) 0 <> None ->
          k = Z.min (space st play) n)
    /\ (forall play write,
          GetCurrentPosition dev = Some (play, write) -> k <= space st play).
Proof.
  intros Hlive [Hlock Hcur] Hn Hdata.
  pose proof Hlive as [Hp HB Hm HW].
  assert (Hidle : forall st0 : Audio,
            pdsb st0 = Some mem ->
            nSampleBufferSize st0 = nSampleBufferSize st ->
            dwWriteOffset st0 = dwWriteOffset st ->
            live (ring_write mem (Z.to_nat (dwWriteOffset st))
                    (take (Z.to_nat 0) data)) st0
            /\ nSampleBufferSize st0 = nSampleBufferSize st
            /\ 0 <= 0 <= n
            /\ dwWriteOffset st0
               = (dwWriteOffset st + 0) mod nSampleBufferSize st).
  { intros st0 H0 H1 H2. split; [split; cbn; lia || (rewrite ?H1, ?H2; auto; lia)|].
    split; [exact H1|]. split; [lia|].
    rewrite H2, Z.add_0_r, Z.mod_small; lia. }
  destruct (GetCurrentPosition dev) as [[play write]|] eqn:Hpos.
  2:{ exists Break, (call EvGetCurrentPosition st), 0.
      replace (n - 0) with n by lia.
      split; [unfold AddData_pass; rewrite Hp, Hpos; reflexivity|].
      destruct (Hidle (call EvGetCurrentPosition st) Hp eq_refl eq_refl)
        as (H1 & H2 & H3 & H4).
      repeat (split; [assumption|]). split; [discriminate|].
      split; [right; reflexivity|]. split; intros; discriminate. }
  specialize (Hcur play write eq_refl).
  pose proof (space_range st play ltac:(lia)) as Hsp.
  set (k := Z.min (space st play) n).
  destruct (Z.eq_dec k 0) as [Ek|Ek].
  { exists Continue, (call (EvSleep 2) (call EvGetCurrentPosition st)), 0.
    replace (n - 0) with n by lia.
    split.
    { unfold AddData_pass. rewrite Hp, Hpos.
      cbn [call nSampleBufferSize dwWriteOffset].
      rewrite nSpace_is_space by assumption.
      rewrite (u32_small (nSampleBufferSize st)) by lia.
      destruct (Z.eqb_spec (nSampleBufferSize st) 0) as [E|_]; [lia|].
      fold k. rewrite Ek. cbn [Z.eqb].
      destruct (Z.eqb_spec n 0) as [E|_]; [lia|]. reflexivity. }
    destruct (Hidle (call (EvSleep 2) (call EvGetCurrentPosition st))
                Hp eq_refl eq_refl) as (H1 & H2 & H3 & H4).
    repeat (split; [assumption|]). split; [lia|].
    split; [discriminate|].
    split; [intros p w [= <- <-] _; fold k; lia|intros p w [= <- <-]; lia]. }
  destruct (Lock dev (dwWriteOffset st) k 0) as [sp|] eqn:Hl.
  2:{ exists Continue,
        (call (EvSleep 2)
           (call (EvLock (dwWriteOffset st) k 0)
              (call EvGetCurrentPosition st))), 0.
      replace (n - 0) with n by lia.
      split.
      { unfold AddData_pass. rewrite Hp, Hpos.
        cbn [call nSampleBufferSize dwWriteOffset].
        rewrite nSpace_is_space by assumption.
        rewrite (u32_small (nSampleBufferSize st)) by lia.
        destruct (Z.eqb_spec (nSampleBufferSize st) 0) as [E|_]; [lia|].
        fold k. destruct (Z.eqb_spec k 0) as [E|_]; [contradiction|].
        rewrite (u32_small k) by lia. rewrite Hl.
        destruct (Z.eqb_spec n 0) as [E|_]; [lia|]. reflexivity. }
      destruct (Hidle (call (EvSleep 2)
                         (call (EvLock (dwWriteOffset st) k 0)
                            (call EvGetCurrentPosition st)))
                  Hp eq_refl eq_refl) as (H1 & H2 & H3 & H4).
      repeat (split; [assumption|]). split; [lia|].
      split; [discriminate|].
      split; [|intros p w [= <- <-]; lia].
      intros p w [= <- <-] Hne. fold k in Hne. contradiction. }
  pose proof (Hlock _ _ _ _ Hl) as ->.
  pose proof (pass_locked mem st dev data n play write _
                Hlive Hn Hdata Hpos Hcur Ek Hl) as Hpass.
  rewrite ds_lock_plain in Hpass.
  cbn [pvWrite1 dwLength1 pvWrite2 dwLength2] in Hpass.
  specialize (Hpass ltac:(lia) ltac:(lia) ltac:(lia) ltac:(lia) ltac:(lia)
                    ltac:(lia)).
  cbv zeta in Hpass. fold k in Hpass.
  set (l1 := Z.min (Z.min k (nSampleBufferSize st - dwWriteOffset st)) n) in *.
  set (l2 := Z.min (k - Z.min k (nSampleBufferSize st - dwWriteOffset st))
                   (n - l1)) in *.
  assert (Hsum : l1 + l2 = k) by lia.
  destruct (two_spans_memory mem data (Z.to_nat (dwWriteOffset st))
              (Z.to_nat (nSampleBufferSize st - dwWriteOffset st))
              (Z.to_nat l1) (Z.to_nat l2))
    as [_ Hring]; [lia..|].
  rewrite <- Z2Nat.inj_add, Hsum in Hring by lia.
  change (Z.to_nat 0) with 0%nat in Hpass.
  rewrite Hring, Hsum in Hpass.
  replace (dwWriteOffset st + l1 + l2) with (dwWriteOffset st + k) in Hpass
    by lia.
  assert (Hoff := Z.mod_pos_bound (dwWriteOffset st + k) (nSampleBufferSize st)
                    ltac:(lia)).
  assert (Hrl : length (ring_write mem (Z.to_nat (dwWriteOffset st))
                          (take (Z.to_nat k) data)) = length mem)
    by apply ring_write_length.
  destruct (Z.eqb_spec (n - k) 0) as [E|E];
    eexists _, _, k; (split; [exact Hpass|]);
    (split; [split; cbn; [reflexivity|lia|lia|lia]|]);
    (split; [reflexivity|]); (split; [lia|]); (split; [reflexivity|]);
    (split; [try discriminate; intros _; lia|]);
    (split; [try discriminate; intros _; left; lia|]);
    (split; [intros p w [= <- <-] _; reflexivity|]);
    intros p w [= <- <-]; unfold k; lia.
Qed.

Lemma loop_in_order devs : forall mem st data n,
  live mem st ->
  Forall (honours_contract (nSampleBufferSize st)) devs ->
  n < 2 ^ 31 ->
  n <= Z.of_nat (length data) ->
  exists st' k,
    (AddData_loop devs st data n = LeftLoop st' (drop (Z.to_nat k) data) (n - k)
     \/ AddData_loop devs st data n
        = StillPolling st' (drop (Z.to_nat k) data) (n - k))
    /\ live (ring_write mem (Z.to_nat (dwWriteOffset st))
               (take (Z.to_nat k) data)) st'
    /\ nSampleBufferSize st' = nSampleBufferSize st
    /\ 0 <= k /\ (k <= n \/ k = 0)
    /\ dwWriteOffset st' = (dwWriteOffset st + k) mod nSampleBufferSize st.
Proof.
  induction devs as [|dev devs IH]; intros mem st data n Hlive Hdevs Hn Hdata.
  - exists st, 0. replace (n - 0) with n by lia.
    pose proof Hlive as [_ HB _ HW].
    rewrite Z.add_0_r, Z.mod_small by lia. cbn [AddData_loop].
    split; [destruct (n <=? 0); [left|right]; reflexivity|].
    split; [exact Hlive|]. repeat split; auto; lia.
  - cbn [AddData_loop]. destruct (Z.leb_spec n 0) as [Hle|Hgt].
    { exists st, 0. replace (n - 0) with n by lia.
      pose proof Hlive as [_ HB _ HW].
      rewrite Z.add_0_r, Z.mod_small by lia.
      split; [left; reflexivity|]. split; [exact Hlive|].
      repeat split; auto; lia. }
    apply Forall_cons in Hdevs as [Hdev Hrest].
    destruct (pass_in_order mem st dev data n Hlive Hdev ltac:(lia) Hdata)
      as (flow & st1 & k1 & Hpass & Hlive1 & HB1 & Hk1 & Hoff1 & _).
    rewrite Hpass. destruct flow.
    + exists st1, k1. split; [left; reflexivity|].
      split; [exact Hlive1|]. repeat split; auto; lia.
    + destruct (IH _ st1 (drop (Z.to_nat k1) data) (n - k1) Hlive1)
        as (st2 & k2 & Hloop & Hlive2 & HB2 & Hk2 & Hle2 & Hoff2).
      { rewrite HB1. exact Hrest. }
      { lia. }
      { rewrite length_drop. lia. }
      exists st2, (k1 + k2).
      rewrite drop_drop, <- Z2Nat.inj_add in Hloop by lia.
      replace (n - k1 - k2) with (n - (k1 + k2)) in Hloop by lia.
      split; [exact Hloop|]. split.
      { pose proof Hlive as [_ HB Hm HW].
        rewrite Z2Nat.inj_add, take_add, ring_write_app by lia.
        rewrite length_take, Nat.min_l by lia.
        rewrite Hoff1, Z2Nat.inj_mod, Z2Nat.inj_add in Hlive2 by lia.
        replace (Z.to_nat (nSampleBufferSize st))
          with (length (ring_write mem (Z.to_nat (dwWriteOffset st))
                          (take (Z.to_nat k1) data))) in Hlive2
          by (rewrite ring_write_length; lia).
        rewrite ring_write_mod in Hlive2. exact Hlive2. }
      split; [congruence|]. split; [lia|]. split; [lia|].
      rewrite Hoff2, HB1, Hoff1, Zplus_mod_idemp_l. f_equal. lia.
Qed.

(** X16. On a live buffer whose device keeps the contract, a call leaves in the
    sample memory exactly what one write around the ring of the first [k]
    bytes of the input gives, where [k] is what it committed; the bytes
    reach the buffer in stream order, across passes and across the end of
    the buffer, and the rest of the input is still to be written. *)
Theorem AddData_writes_in_stream_order fps host st mem data n :
  live mem st ->
  Forall (honours_contract (nSampleBufferSize st)) (answers host) ->
  n < 2 ^ 31 ->
  n <= Z.of_nat (length data) ->
  exists st' k,
    (AddData fps host st data n = Returned true st'
     \/ AddData fps host st data n
        = Polling st' (drop (Z.to_nat k) data) (n - k))
    /\ pdsb st'
       = Some (ring_write mem (Z.to_nat (dwWriteOffset st))
                 (take (Z.to_nat k) data))
    /\ 0 <= k /\ (k <= n \/ k = 0)
    /\ dwWriteOffset st' = (dwWriteOffset st + k) mod nSampleBufferSize st.
Proof.
  intros Hlive Hdevs Hn Hdata.
  destruct (loop_in_order _ mem st data n Hlive Hdevs Hn Hdata)
    as (st' & k & Hloop & Hlive' & _ & Hk & Hle & Hoff).
  exists st', k. unfold AddData. rewrite (live_pdsb _ _ Hlive).
  split; [destruct Hloop as [-> | ->]; [left|right]; reflexivity|].
  split; [exact (live_pdsb _ _ Hlive')|]. auto.
Qed.

Lemma AddData_writes_in_stream_order_witness :
  exists st' k,
    (AddData 50 (MkHost 100 0 [healthy 8 7; healthy 8 1; healthy 8 4])
       ring8 four_bytes 4 = Returned true st'
     \/ AddData 50 (MkHost 100 0 [healthy 8 7; healthy 8 1; healthy 8 4])
          ring8 four_bytes 4
        = Polling st' (drop (Z.to_nat k) four_bytes) (4 - k))
    /\ pdsb st'
       = Some (ring_write (replicate 8 x00) (Z.to_nat (dwWriteOffset ring8))
                 (take (Z.to_nat k) four_bytes))
    /\ 0 <= k /\ (k <= 4 \/ k = 0)
    /\ dwWriteOffset st' = (dwWriteOffset ring8 + k) mod nSampleBufferSize ring8.
Proof.
  apply (AddData_writes_in_stream_order 50
           (MkHost 100 0 [healthy 8 7; healthy 8 1; healthy 8 4])
           ring8 (replicate 8 x00) four_bytes 4 ring8_live).
  - repeat apply Forall_cons_2; try apply Forall_nil_2;
      apply healthy_honours; cbn; lia.
  - lia.
  - cbn. lia.
Defined.

(** ** Enough passes finish the call *)

Lemma space_zero st play :
  0 < nSampleBufferSize st ->
  0 <= dwWriteOffset st < nSampleBufferSize st ->
  0 <= play < nSampleBufferSize st ->
  space st play = 0 -> play = dwWriteOffset st.
Proof.
  intros HB HW HP. unfold space.
  destruct (Z_lt_le_dec play (dwWriteOffset st)) as [Hlt|Hge].
  - rewrite Z.mod_small by lia. lia.
  - replace (nSampleBufferSize st + play - dwWriteOffset st)
      with ((play - dwWriteOffset st) + 1 * nSampleBufferSize st) by lia.
    rewrite Z_mod_plus_full, Z.mod_small by lia. lia.
Qed.

Lemma loop_completes devs : forall mem st data n,
  live mem st ->
  Forall (responsive (nSampleBufferSize st)) devs ->
  0 < n < 2 ^ 31 ->
  n <= Z.of_nat (length data) ->
  n <= Z.of_nat (length devs) ->
  (forall dev st_i data_i n_i play write,
     makes_pass devs st data n dev st_i data_i n_i ->
     GetCurrentPosition dev = Some (play, write) ->
     play <> dwWriteOffset st_i) ->
  exists st' data', AddData_loop devs st data n = LeftLoop st' data' 0.
Proof.
  induction devs as [|dev devs IH];
    intros mem st data n Hlive Hdevs Hn Hdata Hfuel Hmoves.
  - cbn in Hfuel. lia.
  - cbn [AddData_loop]. destruct (Z.leb_spec n 0) as [Hle|_]; [lia|].
    apply Forall_cons in Hdevs as [(Hdev & (play & write & Hpos) & Hlock) Hrest].
    destruct (pass_in_order mem st dev data n Hlive Hdev Hn Hdata)
      as (flow & st1 & k & Hpass & Hlive1 & HB1 & Hk & _ & Hcont & Hbreak & Hmin
          & _).
    specialize (Hmin play write Hpos (Hlock _ _ _)).
    assert (Hk1 : 1 <= k).
    { pose proof Hlive as [_ HB _ HW].
      pose proof (proj2 Hdev play write Hpos) as Hplay.
      pose proof (space_range st play ltac:(lia)) as Hsp.
      assert (space st play <> 0).
      { intros H0. apply space_zero in H0; try lia.
        apply (Hmoves dev st data n play write); [|exact Hpos|exact H0].
        apply pass_now. lia. }
      lia. }
    rewrite Hpass. destruct flow.
    + destruct (Hbreak eq_refl) as [->|Hnone]; [|congruence].
      rewrite Z.sub_diag. eauto.
    + specialize (Hcont eq_refl).
      apply (IH _ st1 (drop (Z.to_nat k) data) (n - k) Hlive1).
      * rewrite HB1. exact Hrest.
      * lia.
      * rewrite length_drop. lia.
      * cbn [length] in Hfuel. lia.
      * intros dev' st_i d_i n_i p w Hmp.
        apply (Hmoves dev' st_i d_i n_i p w).
        eapply pass_later; [lia|exact Hpass|exact Hmp].
Qed.

(** X17. With a device that answers every query and grants every lock under the
    contract, and a play cursor that is away from the write offset whenever
    a pass looks, each pass writes at least one byte: given as many answers
    as there are bytes, the call returns true with the whole input written
    around the ring and the write offset moved on by its length. *)
Theorem AddData_completes fps host st mem data n :
  live mem st ->
  Forall (responsive (nSampleBufferSize st)) (answers host) ->
  0 < n < 2 ^ 31 ->
  n <= Z.of_nat (length data) ->
  n <= Z.of_nat (length (answers host)) ->
  (forall dev st_i data_i n_i play write,
     makes_pass (answers host) st data n dev st_i data_i n_i ->
     GetCurrentPosition dev = Some (play, write) ->
     play <> dwWriteOffset st_i) ->
  exists st',
    AddData fps host st data n = Returned true st'
    /\ written_in_full (AddData_loop (answers host) st data n)
    /\ pdsb st'
       = Some (ring_write mem (Z.to_nat (dwWriteOffset st))
                 (take (Z.to_nat n) data))
    /\ dwWriteOffset st' = (dwWriteOffset st + n) mod nSampleBufferSize st.
Proof.
  intros Hlive Hdevs Hn Hdata Hfuel Hmoves.
  destruct (loop_completes _ mem st data n Hlive Hdevs Hn Hdata Hfuel Hmoves)
    as (st' & d' & Hdone).
  assert (Hhon : Forall (honours_contract (nSampleBufferSize st))
                   (answers host)).
  { eapply Forall_impl; [exact Hdevs|]. intros dev H. exact (proj1 H). }
  destruct (loop_in_order _ mem st data n Hlive Hhon ltac:(lia) Hdata)
    as (st2 & k & Hloop & Hlive2 & _ & Hk & _ & Hoff).
  rewrite Hdone in Hloop. destruct Hloop as [[= -> _ Hz]|]; [|discriminate].
  assert (k = n) as -> by lia.
  exists st2. unfold AddData. rewrite (live_pdsb _ _ Hlive), Hdone.
  split; [reflexivity|]. split; [cbn; lia|].
  split; [exact (live_pdsb _ _ Hlive2)|exact Hoff].
Qed.

Lemma AddData_completes_witness :
  exists st',
    AddData 50 (MkHost 100 0 [healthy 8 7; healthy 8 1]) ring8 four_bytes 2
    = Returned true st'
    /\ written_in_full
         (AddData_loop [healthy 8 7; healthy 8 1] ring8 four_bytes 2)
    /\ pdsb st'
       = Some (ring_write (replicate 8 x00) 6 (take 2 four_bytes))
    /\ dwWriteOffset st' = (6 + 2) mod 8.
Proof.
  apply (AddData_completes 50 (MkHost 100 0 [healthy 8 7; healthy 8 1])
           ring8 (replicate 8 x00) four_bytes 2 ring8_live).
  - repeat apply Forall_cons_2; try apply Forall_nil_2;
      (split; [apply healthy_honours; cbn; lia|]);
      (split; [eexists _, _; reflexivity|discriminate]).
  - lia.
  - cbn. lia.
  - cbn. lia.
  - intros dev st_i d_i n_i play write Hmp Hpos.
    inversion Hmp as [? ? ? ? ? ? |? ? ? ? ? ? ? ? ? ? ? ? ? Hpass Hmp2]; subst.
    + injection Hpos as <- _. discriminate.
    + vm_compute in Hpass. injection Hpass as <- <- <-.
      inversion Hmp2 as [? ? ? ? ? ? |? ? ? ? ? ? ? ? ? ? ? ? ? Hpass3 Hmp3];
        subst.
      * injection Hpos as <- _. discriminate.
      * inversion Hmp3.
Defined.

(** ** Sound that has not been played *)

Lemma ring_write_outside src : forall (mem : list byte) off j,
  (forall i, (i < length src)%nat -> ((off + i) mod length mem)%nat <> j) ->
  ring_write mem off src !! j = mem !! j.
Proof.
  induction src as [|b src IH]; intros mem off j Hout; cbn [ring_write];
    [reflexivity|].
  rewrite IH.
  - apply list_lookup_insert_ne.
    specialize (Hout 0%nat ltac:(cbn; lia)). rewrite Nat.add_0_r in Hout.
    exact Hout.
  - intros i Hi. rewrite length_insert.
    specialize (Hout (S i) ltac:(cbn; lia)).
    replace (S off + i)%nat with (off + S i)%nat by lia. exact Hout.
Qed.

(** X18. A pass on a live buffer that keeps the contract leaves alone every byte
    from the play cursor round to the write offset: an offset [j] that is at
    least the available space ahead of the write offset, counted around the
    ring, holds after the pass what it held before. *)
Theorem pass_keeps_unplayed mem st dev data n play write flow st' data' n'
    mem' j :
  live mem st ->
  honours_contract (nSampleBufferSize st) dev ->
  0 < n < 2 ^ 31 ->
  n <= Z.of_nat (length data) ->
  GetCurrentPosition dev = Some (play, write) ->
  AddData_pass dev st data n = Some (flow, st', data', n') ->
  pdsb st' = Some mem' ->
  0 <= j < nSampleBufferSize st ->
  space st play <= (j - dwWriteOffset st) mod nSampleBufferSize st ->
  mem' !! Z.to_nat j = mem !! Z.to_nat j.
Proof.
  intros Hlive Hdev Hn Hdata Hpos Hpass Hmem Hj Hfar.
  pose proof Hlive as [Hp HB Hm HW].
  destruct (pass_in_order mem st dev data n Hlive Hdev Hn Hdata)
    as (flow1 & st1 & k & Hpass1 & Hlive1 & _ & Hk & _ & _ & _ & _ & Hsp).
  rewrite Hpass in Hpass1. injection Hpass1 as _ <- _ _.
  rewrite (live_pdsb _ _ Hlive1) in Hmem. injection Hmem as <-.
  specialize (Hsp play write Hpos).
  pose proof (space_range st play ltac:(lia)) as Hrange.
  apply ring_write_outside. intros i Hi Heq.
  rewrite length_take in Hi.
  assert (Hi' : Z.of_nat i < k) by lia.
  apply (f_equal Z.of_nat) in Heq.
  rewrite Nat2Z.inj_mod, Nat2Z.inj_add, Hm, !Z2Nat.id in Heq by lia.
  rewrite <- Heq in Hfar.
  rewrite Zminus_mod_idemp_l in Hfar.
  replace (dwWriteOffset st + Z.of_nat i - dwWriteOffset st)
    with (Z.of_nat i) in Hfar by lia.
  rewrite Z.mod_small in Hfar by lia. lia.
Qed.

Lemma pass_keeps_unplayed_witness :
  [x63; x64; x00; x00; x00; x00; x61; x62] !! Z.to_nat 4
  = replicate 8 x00 !! Z.to_nat 4.
Proof.
  apply (pass_keeps_unplayed (replicate 8 x00) ring8 (healthy 8 2) four_bytes
           4 2 2 Break
           (set_dwWriteOffset 2
              (call (EvUnlock 6 2 0 2)
                 (set_memory [x63; x64; x00; x00; x00; x00; x61; x62]
                    (call (EvLock 6 4 0) (call EvGetCurrentPosition ring8)))))
           [] 0 [x63; x64; x00; x00; x00; x00; x61; x62] 4 ring8_live).
  - apply healthy_honours. cbn. lia.
  - lia.
  - cbn. lia.
  - reflexivity.
  - reflexivity.
  - reflexivity.
  - cbn. lia.
  - vm_compute. discriminate.
Defined.
